(** * node_zlib: the asynchronous zlib binding of node (src/node_zlib.cc)

    A shallow embedding of [ZCtx<mode>]: its constructor-less state, [Init],
    [Write], [Process], [After] and the destructor, written as computations
    in a state-and-assertion monad over the context, the libuv work queue and
    a trace of the calls made to zlib and to V8.

    zlib itself (zlib.h) and libuv are external to the file; zlib's entry
    points are an interface ([Zlib]) the development is parametric in.
    Buffers are an address and a length: the bytes they hold are touched by
    zlib only and play no part here. The width of [size_t] is the
    platform's ([data_model]): the bounds checks of [Write] are computed in
    it. *)

From Stdlib Require Import ZArith List String Bool Lia.
Import ListNotations.

Local Open Scope string_scope.
Local Open Scope Z_scope.

(** ** Machine integers *)

(** [Value::Uint32Value()] on an integral JavaScript number: ToUint32. *)
Definition Uint32Value (n : Z) : Z := n mod 2 ^ 32.

(** Conversion of a value to a 32-bit [int] (two's complement). *)
Definition to_int (x : Z) : Z :=
  let m := x mod 2 ^ 32 in
  if m <? 2 ^ 31 then m else m - 2 ^ 32.

(** Conversion to zlib's [uInt] (unsigned, 32 bits). *)
Definition to_uInt (x : Z) : Z := x mod 2 ^ 32.

(** [size_t] is unsigned and as wide as the platform makes it: 32 bits on
    the ia32 and arm builds of node, 64 bits on the x64 builds. *)
Inductive data_model : Type :=
| ILP32
| LP64.

Existing Class data_model.

Definition size_t_bits {dm : data_model} : Z :=
  match dm with
  | ILP32 => 32
  | LP64 => 64
  end.

Definition to_size_t {dm : data_model} (x : Z) : Z := x mod 2 ^ size_t_bits.

(** ** zlib.h *)

(** Modelled from the spec: the status codes, flush modes and strategies
    are zlib's documented enumeration (zlib.h is not under src/). *)
Definition Z_OK : Z := 0.
Definition Z_STREAM_END : Z := 1.
Definition Z_NEED_DICT : Z := 2.
Definition Z_ERRNO : Z := -1.
Definition Z_STREAM_ERROR : Z := -2.
Definition Z_DATA_ERROR : Z := -3.
Definition Z_MEM_ERROR : Z := -4.
Definition Z_BUF_ERROR : Z := -5.
Definition Z_VERSION_ERROR : Z := -6.

Definition Z_NO_FLUSH : Z := 0.
Definition Z_PARTIAL_FLUSH : Z := 1.
Definition Z_SYNC_FLUSH : Z := 2.
Definition Z_FULL_FLUSH : Z := 3.
Definition Z_FINISH : Z := 4.
Definition Z_BLOCK : Z := 5.

Definition Z_FILTERED : Z := 1.
Definition Z_HUFFMAN_ONLY : Z := 2.
Definition Z_RLE : Z := 3.
Definition Z_FIXED : Z := 4.
Definition Z_DEFAULT_STRATEGY : Z := 0.

Definition Z_DEFLATED : Z := 8.
Definition Z_NULL : Z := 0.

Definition Z_NO_COMPRESSION : Z := 0.
Definition Z_BEST_SPEED : Z := 1.
Definition Z_BEST_COMPRESSION : Z := 9.
Definition Z_DEFAULT_COMPRESSION : Z := -1.

(** A [Bytef *]: the stack array [nada] of [Write], or an address inside a
    buffer. *)
Inductive Bytef_ptr : Type :=
| nada
| address (a : Z).

(** [z_stream], with the fields the binding reads or writes; [state] is
    zlib's own [struct internal_state], opaque to the binding. *)
Record z_stream (internal_state : Type) : Type := mk_z_stream {
  next_in : Bytef_ptr;
  avail_in : Z;
  next_out : Bytef_ptr;
  avail_out : Z;
  state : internal_state;
  zalloc : Z;
  zfree : Z;
  opaque : Z
}.

Arguments mk_z_stream {internal_state}.
Arguments next_in {internal_state}.
Arguments avail_in {internal_state}.
Arguments next_out {internal_state}.
Arguments avail_out {internal_state}.
Arguments state {internal_state}.
Arguments zalloc {internal_state}.
Arguments zfree {internal_state}.
Arguments opaque {internal_state}.

(** Modelled from the spec: the downstream collaborator of the binding
    (zlib, not under src/), "init", "step" and "release" on the transform
    state. Each entry point takes the stream and returns the updated stream
    with zlib's status code; nothing is assumed of them. *)
Class Zlib : Type := {
  internal_state : Type;
  deflateInit2 :
    z_stream internal_state -> Z -> Z -> Z -> Z -> Z ->
    z_stream internal_state * Z;
  inflateInit2 : z_stream internal_state -> Z -> z_stream internal_state * Z;
  deflate : z_stream internal_state -> Z -> z_stream internal_state * Z;
  inflate : z_stream internal_state -> Z -> z_stream internal_state * Z;
  deflateEnd : z_stream internal_state -> z_stream internal_state * Z;
  inflateEnd : z_stream internal_state -> z_stream internal_state * Z
}.

(** ** The binding's data *)

Inductive node_zlib_mode : Type :=
| DEFLATE
| INFLATE
| GZIP
| GUNZIP
| DEFLATERAW
| INFLATERAW
| UNZIP.

(** The enumerators' values: [DEFLATE = 1], then counting up. *)
Definition mode_value (m : node_zlib_mode) : Z :=
  match m with
  | DEFLATE => 1
  | INFLATE => 2
  | GZIP => 3
  | GUNZIP => 4
  | DEFLATERAW => 5
  | INFLATERAW => 6
  | UNZIP => 7
  end.

(** [a == b] on two enumerators. *)
Definition mode_eqb (a b : node_zlib_mode) : bool :=
  match a, b with
  | DEFLATE, DEFLATE | INFLATE, INFLATE | GZIP, GZIP | GUNZIP, GUNZIP
  | DEFLATERAW, DEFLATERAW | INFLATERAW, INFLATERAW | UNZIP, UNZIP => true
  | _, _ => false
  end.

(** A node [Buffer]: where its bytes start and how many there are. *)
Record Buffer : Type := mk_Buffer {
  Buffer_Data : Z;
  Buffer_Length : Z
}.

(** The JavaScript values [Write] tells apart in [args[1]] and [args[4]]. *)
Inductive js_value : Type :=
| JsNull
| JsBuffer (b : Buffer)
| JsOther.

Definition IsNull (v : js_value) : bool :=
  match v with JsNull => true | _ => false end.

Definition Buffer_HasInstance (v : js_value) : bool :=
  match v with JsBuffer _ => true | _ => false end.

(** [v->ToObject()] seen as a buffer; only used after [Buffer_HasInstance]. *)
Definition ToObject (v : js_value) : Buffer :=
  match v with JsBuffer b => b | _ => mk_Buffer 0 0 end.

(** [ReqWrap<uv_work_t>]: [object_] is the handle of the JavaScript request
    object; [data_] is the context, of which the world holds one. *)
Record WorkReqWrap : Type := mk_WorkReqWrap {
  object_ : nat
}.

Record uv_work_t : Type := mk_uv_work_t {
  data : WorkReqWrap
}.

(** An entry of the loop's work queue: the request, and the instantiation
    [ZCtx<mode>] whose [Process] and [After] were passed with it. *)
Record queued_work : Type := mk_queued_work {
  work_req : uv_work_t;
  work_mode : node_zlib_mode
}.

(** ** The context and the world around it *)

Section Binding.

Context {zl : Zlib} {dm : data_model}.

Definition stream : Type := z_stream internal_state.

(** The data members of [ZCtx<mode>]. *)
Record ZCtx : Type := mk_ZCtx {
  init_done_ : bool;
  strm_ : stream;
  level_ : Z;
  windowBits_ : Z;
  memLevel_ : Z;
  strategy_ : Z;
  flush_ : Z;
  chunk_size_ : Z
}.

(** What the binding asks of zlib and of V8, in the order it asks: each zlib
    call with its arguments and the status code it returned, each
    [MakeCallback] with the receiver, the method name and the arguments. *)
Inductive event : Type :=
| call_deflateInit2 (level method windowBits memLevel strategy : Z) (err : Z)
| call_inflateInit2 (windowBits : Z) (err : Z)
| call_deflate (strm : stream) (flush : Z) (err : Z)
| call_inflate (strm : stream) (flush : Z) (err : Z)
| call_deflateEnd (strm : stream) (err : Z)
| call_inflateEnd (strm : stream) (err : Z)
| call_MakeCallback (object : nat) (method : string) (argv : list Z).

(** The state the member functions run in: the context [this], the loop's
    queue of submitted work, the request objects allocated so far, those of
    them whose [callback] property holds a function, and the trace. *)
Record World : Type := mk_World {
  ctx : ZCtx;
  loop : list queued_work;
  objects : nat;
  callbacks : list nat;
  trace : list event
}.

(** *** Computations that may fail an [assert] *)

Inductive outcome (A : Type) : Type :=
| Returned (a : A)
| AssertionFailed (msg : string).

Arguments Returned {A}.
Arguments AssertionFailed {A}.

(** A computation runs in a world and leaves one behind, also when an
    assertion stops it: the world is then the one the assertion saw. *)
Definition M (A : Type) : Type := World -> outcome A * World.

Definition ret {A : Type} (a : A) : M A := fun w => (Returned a, w).

Definition bind {A B : Type} (c : M A) (k : A -> M B) : M B :=
  fun w =>
    match c w with
    | (Returned a, w') => k a w'
    | (AssertionFailed msg, w') => (AssertionFailed msg, w')
    end.

Notation "x <- c ;; k" := (bind c (fun x => k))
  (at level 61, c at next level, right associativity).
Notation "c ;; k" := (bind c (fun _ => k))
  (at level 61, right associativity).

Definition assert (b : bool) (msg : string) : M unit :=
  fun w => if b then (Returned tt, w) else (AssertionFailed msg, w).

Definition get_ctx : M ZCtx := fun w => (Returned (ctx w), w).

Definition update_ctx (f : ZCtx -> ZCtx) : M unit :=
  fun w =>
    (Returned tt,
     mk_World (f (ctx w)) (loop w) (objects w) (callbacks w) (trace w)).

Definition emit (e : event) : M unit :=
  fun w =>
    (Returned tt,
     mk_World (ctx w) (loop w) (objects w) (callbacks w) (trace w ++ [e])).

(** *** Assignments to the members *)

Definition set_init_done_ (v : bool) (c : ZCtx) : ZCtx :=
  mk_ZCtx v (strm_ c) (level_ c) (windowBits_ c) (memLevel_ c) (strategy_ c)
    (flush_ c) (chunk_size_ c).
Definition set_strm_ (v : stream) (c : ZCtx) : ZCtx :=
  mk_ZCtx (init_done_ c) v (level_ c) (windowBits_ c) (memLevel_ c)
    (strategy_ c) (flush_ c) (chunk_size_ c).
Definition set_level_ (v : Z) (c : ZCtx) : ZCtx :=
  mk_ZCtx (init_done_ c) (strm_ c) v (windowBits_ c) (memLevel_ c)
    (strategy_ c) (flush_ c) (chunk_size_ c).
Definition set_windowBits_ (v : Z) (c : ZCtx) : ZCtx :=
  mk_ZCtx (init_done_ c) (strm_ c) (level_ c) v (memLevel_ c) (strategy_ c)
    (flush_ c) (chunk_size_ c).
Definition set_memLevel_ (v : Z) (c : ZCtx) : ZCtx :=
  mk_ZCtx (init_done_ c) (strm_ c) (level_ c) (windowBits_ c) v (strategy_ c)
    (flush_ c) (chunk_size_ c).
Definition set_strategy_ (v : Z) (c : ZCtx) : ZCtx :=
  mk_ZCtx (init_done_ c) (strm_ c) (level_ c) (windowBits_ c) (memLevel_ c) v
    (flush_ c) (chunk_size_ c).
Definition set_flush_ (v : Z) (c : ZCtx) : ZCtx :=
  mk_ZCtx (init_done_ c) (strm_ c) (level_ c) (windowBits_ c) (memLevel_ c)
    (strategy_ c) v (chunk_size_ c).
Definition set_chunk_size_ (v : Z) (c : ZCtx) : ZCtx :=
  mk_ZCtx (init_done_ c) (strm_ c) (level_ c) (windowBits_ c) (memLevel_ c)
    (strategy_ c) (flush_ c) v.

Definition set_next_in (v : Bytef_ptr) (s : stream) : stream :=
  mk_z_stream v (avail_in s) (next_out s) (avail_out s) (state s) (zalloc s)
    (zfree s) (opaque s).
Definition set_avail_in (v : Z) (s : stream) : stream :=
  mk_z_stream (next_in s) v (next_out s) (avail_out s) (state s) (zalloc s)
    (zfree s) (opaque s).
Definition set_next_out (v : Bytef_ptr) (s : stream) : stream :=
  mk_z_stream (next_in s) (avail_in s) v (avail_out s) (state s) (zalloc s)
    (zfree s) (opaque s).
Definition set_avail_out (v : Z) (s : stream) : stream :=
  mk_z_stream (next_in s) (avail_in s) (next_out s) v (state s) (zalloc s)
    (zfree s) (opaque s).
Definition set_zalloc (v : Z) (s : stream) : stream :=
  mk_z_stream (next_in s) (avail_in s) (next_out s) (avail_out s) (state s) v
    (zfree s) (opaque s).
Definition set_zfree (v : Z) (s : stream) : stream :=
  mk_z_stream (next_in s) (avail_in s) (next_out s) (avail_out s) (state s)
    (zalloc s) v (opaque s).
Definition set_opaque (v : Z) (s : stream) : stream :=
  mk_z_stream (next_in s) (avail_in s) (next_out s) (avail_out s) (state s)
    (zalloc s) (zfree s) v.

(** [ctx->strm_.field = v] *)
Definition assign_strm (f : stream -> stream) : M unit :=
  update_ctx (fun c => set_strm_ (f (strm_ c)) c).

(** *** Calls into zlib on [&ctx->strm_] *)

Definition zlib_call (f : stream -> stream * Z) (ev : stream -> Z -> event)
  : M Z :=
  fun w =>
    let s := strm_ (ctx w) in
    let r := f s in
    (Returned (snd r),
     mk_World (set_strm_ (fst r) (ctx w)) (loop w) (objects w) (callbacks w)
       (trace w ++ [ev s (snd r)])).

(** *** V8 and libuv *)

(** [Integer::New(int32_t)]: the argument is converted to a 32-bit int. *)
Definition Integer_New (v : Z) : Z := to_int v.

(** [new WorkReqWrap()]: a fresh request object, without a callback yet. *)
Definition new_WorkReqWrap : M WorkReqWrap :=
  fun w =>
    (Returned (mk_WorkReqWrap (objects w)),
     mk_World (ctx w) (loop w) (S (objects w)) (callbacks w) (trace w)).

(** [uv_queue_work(loop, work_req, ZCtx<mode>::Process, ZCtx<mode>::After)] *)
Definition uv_queue_work (work_req : uv_work_t) (mode : node_zlib_mode)
  : M unit :=
  fun w =>
    (Returned tt,
     mk_World (ctx w) (loop w ++ [mk_queued_work work_req mode]) (objects w)
       (callbacks w) (trace w)).

(** [object->Get(statics->callback_sym)->IsFunction()] *)
Definition callback_IsFunction (object : nat) : M bool :=
  fun w => (Returned (existsb (Nat.eqb object) (callbacks w)), w).

Definition MakeCallback (object : nat) (method : string) (argv : list Z)
  : M unit :=
  emit (call_MakeCallback object method argv).

(** Modelled from the spec: the caller's side of the Completion Bridge
    (lib/zlib.js, not under src/): [req.callback = function ...] on the
    object [Write] returned. *)
Definition set_callback (object : nat) : M unit :=
  fun w =>
    (Returned tt,
     mk_World (ctx w) (loop w) (objects w) (object :: callbacks w) (trace w)).

(** ** The member functions of [ZCtx<mode>] *)

(** [~ZCtx()] *)
Definition ZCtx_destructor (mode : node_zlib_mode) : M unit :=
  if mode_eqb mode DEFLATE || mode_eqb mode GZIP || mode_eqb mode DEFLATERAW
  then
    zlib_call deflateEnd call_deflateEnd ;; ret tt
  else if mode_eqb mode INFLATE || mode_eqb mode GUNZIP
          || mode_eqb mode INFLATERAW
  then
    zlib_call inflateEnd call_inflateEnd ;; ret tt
  else ret tt.

(** [Write(args)], with [args] = (flush, in, in_off, in_len, out, out_off,
    out_len); it returns [req_wrap->object_]. *)
Definition Write (mode : node_zlib_mode)
    (a0 : Z) (a1 : js_value) (a2 a3 : Z) (a4 : js_value) (a5 a6 : Z)
  : M nat :=
  c <- get_ctx ;;
  assert (init_done_ c) "write before init" ;;
  let flush := Uint32Value a0 in
  input <-
    (if IsNull a1 then
       (* just a flush: in = nada, in_len = 0, in_off = 0 *)
       ret (nada, 0)
     else
       assert (Buffer_HasInstance a1) "Buffer::HasInstance(args[1])" ;;
       let in_buf := ToObject a1 in
       let in_off := to_size_t (Uint32Value a2) in
       let in_len := to_size_t (Uint32Value a3) in
       assert (to_size_t (in_off + in_len) <=? Buffer_Length in_buf)
         "in_off + in_len <= Buffer::Length(in_buf)" ;;
       ret (address (Buffer_Data in_buf + in_off), in_len)) ;;
  let in_ := fst input in
  let in_len := snd input in
  assert (Buffer_HasInstance a4) "Buffer::HasInstance(args[4])" ;;
  let out_buf := ToObject a4 in
  let out_off := to_size_t (Uint32Value a5) in
  let out_len := to_size_t (Uint32Value a6) in
  assert (to_size_t (out_off + out_len) <=? Buffer_Length out_buf)
    "out_off + out_len <= Buffer::Length(out_buf)" ;;
  let out := address (Buffer_Data out_buf + out_off) in
  req_wrap <- new_WorkReqWrap ;;
  assign_strm (set_avail_in (to_uInt in_len)) ;;
  assign_strm (set_next_in in_) ;;
  assign_strm (set_avail_out (to_uInt out_len)) ;;
  assign_strm (set_next_out out) ;;
  update_ctx (set_flush_ (to_int flush)) ;;
  update_ctx (set_chunk_size_ (to_int out_len)) ;;
  let work_req := mk_uv_work_t req_wrap in
  uv_queue_work work_req mode ;;
  ret (object_ req_wrap).

(** [Process(work_req)], run on the thread pool. *)
Definition Process (mode : node_zlib_mode) (work_req : uv_work_t) : M unit :=
  c <- get_ctx ;;
  err <-
    match mode with
    | DEFLATE | GZIP | DEFLATERAW =>
        zlib_call (fun s => deflate s (flush_ c))
          (fun s => call_deflate s (flush_ c))
    | UNZIP | INFLATE | GUNZIP | INFLATERAW =>
        zlib_call (fun s => inflate s (flush_ c))
          (fun s => call_inflate s (flush_ c))
    end ;;
  assert (negb (err =? Z_STREAM_ERROR)) "err != Z_STREAM_ERROR".

(** [After(work_req)], run on the loop's thread. *)
Definition After (mode : node_zlib_mode) (work_req : uv_work_t) : M unit :=
  let req_wrap := data work_req in
  c <- get_ctx ;;
  let avail_out := Integer_New (avail_out (strm_ c)) in
  let avail_in := Integer_New (avail_in (strm_ c)) in
  is_function <- callback_IsFunction (object_ req_wrap) ;;
  assert is_function "Invalid callback" ;;
  MakeCallback (object_ req_wrap) "callback" [avail_in; avail_out].

(** [Init(ctx, level, windowBits, memLevel, strategy)] *)
Definition Init (mode : node_zlib_mode)
    (level windowBits memLevel strategy : Z) : M unit :=
  update_ctx (set_level_ level) ;;
  update_ctx (set_windowBits_ windowBits) ;;
  update_ctx (set_memLevel_ memLevel) ;;
  update_ctx (set_strategy_ strategy) ;;
  assign_strm (set_zalloc Z_NULL) ;;
  assign_strm (set_zfree Z_NULL) ;;
  assign_strm (set_opaque Z_NULL) ;;
  update_ctx (set_flush_ Z_NO_FLUSH) ;;
  (if mode_eqb mode GZIP || mode_eqb mode GUNZIP then
     update_ctx (fun c => set_windowBits_ (to_int (windowBits_ c + 16)) c)
   else ret tt) ;;
  (if mode_eqb mode UNZIP then
     update_ctx (fun c => set_windowBits_ (to_int (windowBits_ c + 32)) c)
   else ret tt) ;;
  (if mode_eqb mode DEFLATERAW || mode_eqb mode INFLATERAW then
     update_ctx (fun c => set_windowBits_ (to_int (windowBits_ c * -1)) c)
   else ret tt) ;;
  c <- get_ctx ;;
  err <-
    match mode with
    | DEFLATE | GZIP | DEFLATERAW =>
        zlib_call
          (fun s =>
             deflateInit2 s (level_ c) Z_DEFLATED (windowBits_ c)
               (memLevel_ c) (strategy_ c))
          (fun _ =>
             call_deflateInit2 (level_ c) Z_DEFLATED (windowBits_ c)
               (memLevel_ c) (strategy_ c))
    | INFLATE | GUNZIP | INFLATERAW | UNZIP =>
        zlib_call (fun s => inflateInit2 s (windowBits_ c))
          (fun _ => call_inflateInit2 (windowBits_ c))
    end ;;
  update_ctx (set_init_done_ true) ;;
  assert (err =? Z_OK) "err == Z_OK".

(** [Init(args)], with [args] = (windowBits, level, memLevel, strategy). *)
Definition Init_args (mode : node_zlib_mode) (a0 a1 a2 a3 : Z) : M unit :=
  let windowBits := to_int (Uint32Value a0) in
  assert ((8 <=? windowBits) && (windowBits <=? 15)) "invalid windowBits" ;;
  let level := to_int (Uint32Value a1) in
  assert ((-1 <=? level) && (level <=? 9)) "invalid compression level" ;;
  let memLevel := to_int (Uint32Value a2) in
  assert ((1 <=? memLevel) && (memLevel <=? 9)) "invalid memlevel" ;;
  let strategy := to_int (Uint32Value a3) in
  assert ((strategy =? Z_FILTERED) || (strategy =? Z_HUFFMAN_ONLY)
          || (strategy =? Z_RLE) || (strategy =? Z_FIXED)
          || (strategy =? Z_DEFAULT_STRATEGY)) "invalid strategy" ;;
  Init mode level windowBits memLevel strategy.

End Binding.

Arguments Returned {A}.
Arguments AssertionFailed {A}.

(** ** A scripted transform

    An instance of [Zlib] to run the binding on concrete requests: the
    internal state says whether the transform state is allocated and holds
    the replies zlib will give, in order. A reply to [deflate] or [inflate]
    is the status code with the number of bytes consumed and produced. *)

Record scripted : Type := mk_scripted {
  allocated : bool;
  init_reply : Z;
  replies : list (Z * Z * Z)
}.

Definition advance (p : Bytef_ptr) (n : Z) : Bytef_ptr :=
  match p with
  | nada => nada
  | address a => address (a + n)
  end.

Definition scripted_init (s : z_stream scripted) : z_stream scripted * Z :=
  let st := state s in
  let err := init_reply st in
  (mk_z_stream (next_in s) (avail_in s) (next_out s) (avail_out s)
     (mk_scripted (err =? Z_OK) err (replies st))
     (zalloc s) (zfree s) (opaque s),
   err).

Definition scripted_step (s : z_stream scripted) : z_stream scripted * Z :=
  let st := state s in
  match replies st with
  | [] => (s, Z_BUF_ERROR)
  | (err, consumed, produced) :: rest =>
      (mk_z_stream (advance (next_in s) consumed) (avail_in s - consumed)
         (advance (next_out s) produced) (avail_out s - produced)
         (mk_scripted (allocated st) (init_reply st) rest)
         (zalloc s) (zfree s) (opaque s),
       err)
  end.

Definition scripted_end (s : z_stream scripted) : z_stream scripted * Z :=
  let st := state s in
  (mk_z_stream (next_in s) (avail_in s) (next_out s) (avail_out s)
     (mk_scripted false (init_reply st) (replies st))
     (zalloc s) (zfree s) (opaque s),
   if allocated st then Z_OK else Z_STREAM_ERROR).

Definition scripted_zlib : Zlib := {|
  internal_state := scripted;
  deflateInit2 := fun s _ _ _ _ _ => scripted_init s;
  inflateInit2 := fun s _ => scripted_init s;
  deflate := fun s _ => scripted_step s;
  inflate := fun s _ => scripted_step s;
  deflateEnd := scripted_end;
  inflateEnd := scripted_end
|}.

(** The constructor [ZCtx()] initialises no member. This is one context it
    may leave, every member zero, over a transform that will answer
    [init_reply] to the initialisation and then [replies]. *)
Definition fresh_ctx (init_reply : Z) (replies : list (Z * Z * Z))
  : ZCtx (zl := scripted_zlib) :=
  mk_ZCtx (zl := scripted_zlib) false
    (mk_z_stream nada 0 nada 0 (mk_scripted false init_reply replies) 0 0 0)
    0 0 0 0 0 0.

Definition fresh_world (init_reply : Z) (replies : list (Z * Z * Z))
  : World (zl := scripted_zlib) :=
  mk_World (fresh_ctx init_reply replies) [] 0 [] [].

(** ** The vocabulary of the statements *)

Section Specification.

Context {zl : Zlib} {dm : data_model}.

(** The documented ranges of [Init]'s parameters, as the specification
    words them. *)
Definition valid_configuration (level windowBits memLevel strategy : Z)
  : Prop :=
  8 <= windowBits <= 15 /\ -1 <= level <= 9 /\ 1 <= memLevel <= 9 /\
  (strategy = Z_FILTERED \/ strategy = Z_HUFFMAN_ONLY \/ strategy = Z_RLE \/
   strategy = Z_FIXED \/ strategy = Z_DEFAULT_STRATEGY).

(** The assertions of [Init(args)] that reject a configuration. *)
Definition InvalidConfig (msg : string) : Prop :=
  msg = "invalid windowBits" \/ msg = "invalid compression level" \/
  msg = "invalid memlevel" \/ msg = "invalid strategy".

(** The bounds assertions of [Write]. *)
Definition OutOfBounds (msg : string) : Prop :=
  msg = "in_off + in_len <= Buffer::Length(in_buf)" \/
  msg = "out_off + out_len <= Buffer::Length(out_buf)".

(** The windowBits rule of the Codec Registry, as the specification words
    it: the gzip variants add a fixed offset (16), the auto-detecting variant
    a larger one (32), the raw variants negate. *)
Definition registry_windowBits (mode : node_zlib_mode) (windowBits : Z) : Z :=
  match mode with
  | GZIP | GUNZIP => windowBits + 16
  | UNZIP => windowBits + 32
  | DEFLATERAW | INFLATERAW => - windowBits
  | DEFLATE | INFLATE => windowBits
  end.

(** The transform family of the Codec Registry, as the specification words
    it: compressing or decompressing. *)
Definition compressing (mode : node_zlib_mode) : bool :=
  match mode with
  | DEFLATE | GZIP | DEFLATERAW => true
  | INFLATE | GUNZIP | INFLATERAW | UNZIP => false
  end.

(** The stream [Init] hands to zlib: the allocator hooks are cleared. *)
Definition cleared_hooks (s : stream) : stream :=
  set_opaque Z_NULL (set_zfree Z_NULL (set_zalloc Z_NULL s)).

(** zlib's answer to the initialisation of a variant. *)
Definition transform_init (mode : node_zlib_mode) (s : stream)
    (level windowBits memLevel strategy : Z) : stream * Z :=
  if compressing mode then
    deflateInit2 s level Z_DEFLATED windowBits memLevel strategy
  else inflateInit2 s windowBits.

(** The call [Init] is expected to log. *)
Definition init_event (mode : node_zlib_mode)
    (level windowBits memLevel strategy err : Z) : event :=
  if compressing mode then
    call_deflateInit2 level Z_DEFLATED windowBits memLevel strategy err
  else call_inflateInit2 windowBits err.

(** zlib's answer to one step of a variant. *)
Definition transform_step (mode : node_zlib_mode) (s : stream) (flush : Z)
  : stream * Z :=
  if compressing mode then deflate s flush else inflate s flush.

(** The call [Process] is expected to log. *)
Definition step_event (mode : node_zlib_mode) (s : stream) (flush err : Z)
  : event :=
  if compressing mode then call_deflate s flush err
  else call_inflate s flush err.

(** The four range checks of [Init(args)], as one boolean. *)
Definition checks_pass (level windowBits memLevel strategy : Z) : bool :=
  ((8 <=? windowBits) && (windowBits <=? 15)) &&
  ((-1 <=? level) && (level <=? 9)) &&
  ((1 <=? memLevel) && (memLevel <=? 9)) &&
  ((strategy =? Z_FILTERED) || (strategy =? Z_HUFFMAN_ONLY)
   || (strategy =? Z_RLE) || (strategy =? Z_FIXED)
   || (strategy =? Z_DEFAULT_STRATEGY)).

(** The context [Write] leaves: the four stream members and the two
    members [flush_] and [chunk_size_] are assigned, the rest is kept. *)
Definition staged_ctx (c : ZCtx) (in_ : Bytef_ptr) (in_len : Z)
    (out : Bytef_ptr) (out_len flush : Z) : ZCtx :=
  mk_ZCtx (init_done_ c)
    (mk_z_stream in_ in_len out out_len (state (strm_ c)) (zalloc (strm_ c))
       (zfree (strm_ c)) (opaque (strm_ c)))
    (level_ c) (windowBits_ c) (memLevel_ c) (strategy_ c) (to_int flush)
    (to_int out_len).

(** The queue entry [Write] submits for the request object [h]. *)
Definition work_item (mode : node_zlib_mode) (h : nat) : queued_work :=
  mk_queued_work (mk_uv_work_t (mk_WorkReqWrap h)) mode.

(** A request as the caller's [write()] forms it: the input is the flush-only
    marker or a slice inside its buffer, the output a slice inside its
    buffer. *)
Definition valid_request (a1 : js_value) (a2 a3 : Z) (a4 : js_value)
    (a5 a6 : Z) : Prop :=
  (a1 = JsNull \/
   exists in_buf,
     a1 = JsBuffer in_buf /\
     Uint32Value a2 + Uint32Value a3 <= Buffer_Length in_buf) /\
  (exists out_buf,
     a4 = JsBuffer out_buf /\
     Uint32Value a5 + Uint32Value a6 <= Buffer_Length out_buf).

(** The input pointer and length [Write] stages for a request. *)
Definition staged_input (a1 : js_value) (a2 a3 : Z) : Bytef_ptr * Z :=
  match a1 with
  | JsBuffer in_buf =>
      (address (Buffer_Data in_buf + Uint32Value a2), Uint32Value a3)
  | _ => (nada, 0)
  end.

(** A slice that runs past the end of its buffer. *)
Definition slice_exceeds (v : js_value) (off len : Z) : Prop :=
  exists b,
    v = JsBuffer b /\ Buffer_Length b < Uint32Value off + Uint32Value len.

(** A slice on which the bounds assertion of [Write] fails: the sum is the
    one the platform computes, in [size_t]. *)
Definition check_exceeds (v : js_value) (off len : Z) : Prop :=
  exists b,
    v = JsBuffer b /\
    Buffer_Length b < to_size_t (Uint32Value off + Uint32Value len).

(** The calls of [deflate] and [inflate] in a trace. *)
Definition is_transform_call (e : event) : bool :=
  match e with
  | call_deflate _ _ _ | call_inflate _ _ _ => true
  | _ => false
  end.

(** The world [Process] leaves. *)
Definition processed (mode : node_zlib_mode) (w : World) : World :=
  let r := transform_step mode (strm_ (ctx w)) (flush_ (ctx w)) in
  mk_World (set_strm_ (fst r) (ctx w)) (loop w) (objects w) (callbacks w)
    (trace w ++
     [step_event mode (strm_ (ctx w)) (flush_ (ctx w)) (snd r)]).

(** The completion [After] hands to [MakeCallback]. *)
Definition completion (work_req : uv_work_t) (w : World) : event :=
  call_MakeCallback (object_ (data work_req)) "callback"
    [Integer_New (avail_in (strm_ (ctx w)));
     Integer_New (avail_out (strm_ (ctx w)))].

(** The request object [object] has a function as its [callback]. *)
Definition has_callback (object : nat) (w : World) : bool :=
  existsb (Nat.eqb object) (callbacks w).

(** The stream [Write] leaves for the work item. *)
Definition staged_stream (s : stream) (a1 : js_value) (a2 a3 : Z)
    (a4 : js_value) (a5 a6 : Z) : stream :=
  mk_z_stream (fst (staged_input a1 a2 a3)) (snd (staged_input a1 a2 a3))
    (address (Buffer_Data (ToObject a4) + Uint32Value a5)) (Uint32Value a6)
    (state s) (zalloc s) (zfree s) (opaque s).

(** The request [Write] hands to [uv_queue_work] for the object [h]. *)
Definition request (h : nat) : uv_work_t := mk_uv_work_t (mk_WorkReqWrap h).

(** The calls of [MakeCallback] in a trace: what reaches the caller. *)
Definition is_completion (e : event) : bool :=
  match e with
  | call_MakeCallback _ _ _ => true
  | _ => false
  end.

End Specification.

(** ** Outcomes of Write and orders of calls *)

Section Schedules.

Context {zl : Zlib} {dm : data_model}.

(** The world a [Write] that returns leaves. *)
Definition written (mode : node_zlib_mode) (a0 : Z) (a1 : js_value)
    (a2 a3 : Z) (a4 : js_value) (a5 a6 : Z) (w : World) : World :=
  mk_World
    (staged_ctx (ctx w) (fst (staged_input a1 a2 a3))
       (snd (staged_input a1 a2 a3))
       (address (Buffer_Data (ToObject a4) + Uint32Value a5))
       (Uint32Value a6) (Uint32Value a0))
    (loop w ++ [work_item mode (objects w)]) (S (objects w)) (callbacks w)
    (trace w).

(** The ways through [Write], in the order of its assertions: the first
    check that fails decides the outcome, and the last case is the one in
    which all of them pass. The bounds checks are the ones the platform
    computes. *)
Inductive Write_result (mode : node_zlib_mode) (a0 : Z) (a1 : js_value)
    (a2 a3 : Z) (a4 : js_value) (a5 a6 : Z) (w : World)
  : outcome nat * World -> Prop :=
| Write_uninitialised :
    init_done_ (ctx w) = false ->
    Write_result mode a0 a1 a2 a3 a4 a5 a6 w
      (AssertionFailed "write before init", w)
| Write_input_no_buffer :
    init_done_ (ctx w) = true ->
    a1 = JsOther ->
    Write_result mode a0 a1 a2 a3 a4 a5 a6 w
      (AssertionFailed "Buffer::HasInstance(args[1])", w)
| Write_input_out_of_bounds :
    init_done_ (ctx w) = true ->
    check_exceeds a1 a2 a3 ->
    Write_result mode a0 a1 a2 a3 a4 a5 a6 w
      (AssertionFailed "in_off + in_len <= Buffer::Length(in_buf)", w)
| Write_output_no_buffer :
    init_done_ (ctx w) = true ->
    a1 <> JsOther ->
    ~ check_exceeds a1 a2 a3 ->
    Buffer_HasInstance a4 = false ->
    Write_result mode a0 a1 a2 a3 a4 a5 a6 w
      (AssertionFailed "Buffer::HasInstance(args[4])", w)
| Write_output_out_of_bounds :
    init_done_ (ctx w) = true ->
    a1 <> JsOther ->
    ~ check_exceeds a1 a2 a3 ->
    check_exceeds a4 a5 a6 ->
    Write_result mode a0 a1 a2 a3 a4 a5 a6 w
      (AssertionFailed "out_off + out_len <= Buffer::Length(out_buf)", w)
| Write_accepted :
    init_done_ (ctx w) = true ->
    a1 <> JsOther ->
    ~ check_exceeds a1 a2 a3 ->
    Buffer_HasInstance a4 = true ->
    ~ check_exceeds a4 a5 a6 ->
    Write_result mode a0 a1 a2 a3 a4 a5 a6 w
      (Returned (objects w), written mode a0 a1 a2 a3 a4 a5 a6 w).

(** zlib's answer to the release of a variant's stream, and the call the
    destructor is expected to log for it. *)
Definition transform_end (mode : node_zlib_mode) (s : stream) : stream * Z :=
  if compressing mode then deflateEnd s else inflateEnd s.

Definition end_event (mode : node_zlib_mode) (s : stream) (err : Z) : event :=
  if compressing mode then call_deflateEnd s err else call_inflateEnd s err.

(** The four members [Init] takes from its arguments. *)
Definition configuration (c : ZCtx) : Z * Z * Z * Z :=
  (level_ c, windowBits_ c, memLevel_ c, strategy_ c).

(** A call on a context: by the caller ([init], [write], or putting the
    callback on a request object) or by the loop ([Process], [After]). *)
Inductive step : Type :=
| do_Init (a0 a1 a2 a3 : Z)
| do_Write (a0 : Z) (a1 : js_value) (a2 a3 : Z) (a4 : js_value) (a5 a6 : Z)
| do_callback (object : nat)
| do_Process (work_req : uv_work_t)
| do_After (work_req : uv_work_t).

(** The world a call leaves, whatever its outcome. *)
Definition run_step (mode : node_zlib_mode) (s : step) (w : World) : World :=
  match s with
  | do_Init a0 a1 a2 a3 => snd (Init_args mode a0 a1 a2 a3 w)
  | do_Write a0 a1 a2 a3 a4 a5 a6 => snd (Write mode a0 a1 a2 a3 a4 a5 a6 w)
  | do_callback object => snd (set_callback object w)
  | do_Process work_req => snd (Process mode work_req w)
  | do_After work_req => snd (After mode work_req w)
  end.

(** Calls in any order and number, each in the world the one before left. *)
Definition run_steps (mode : node_zlib_mode) (ss : list step) (w : World)
  : World :=
  fold_left (fun w s => run_step mode s w) ss w.

Definition is_Init (s : step) : bool :=
  match s with do_Init _ _ _ _ => true | _ => false end.

Definition is_Write (s : step) : bool :=
  match s with do_Write _ _ _ _ _ _ _ => true | _ => false end.

Definition is_Process (s : step) : bool :=
  match s with do_Process _ => true | _ => false end.

Definition is_After (s : step) : bool :=
  match s with do_After _ => true | _ => false end.

(** Only request objects that exist have a callback. *)
Definition callbacks_allocated (w : World) : Prop :=
  Forall (fun object => (object < objects w)%nat) (callbacks w).

End Schedules.

(** ** Module registration *)

(** The member functions a template refers to: [ZCtx<mode>::New],
    [ZCtx<mode>::Write] and [ZCtx<mode>::Init]. *)
Inductive member_function : Type :=
| ZCtx_New (mode : node_zlib_mode)
| ZCtx_Write (mode : node_zlib_mode)
| ZCtx_Init (mode : node_zlib_mode).

(** A [FunctionTemplate], with what [NODE_ZLIB_CLASS] sets on it. *)
Record FunctionTemplate : Type := mk_FunctionTemplate {
  template_callback : member_function;
  InternalFieldCount : Z;
  prototype : list (string * member_function);
  ClassName : string
}.

(** The values [InitZlib] puts on [target]. *)
Inductive js_property : Type :=
| js_function (z : FunctionTemplate)
| js_integer (v : Z)
| js_string (s : string).

(** A JavaScript object as its properties, the newest first. *)
Definition Object : Type := list (string * js_property).

(** [target->Set(key, value)] *)
Definition Object_Set (key : string) (value : js_property) (target : Object)
  : Object :=
  (key, value) :: target.

(** [target->Get(key)]: the newest property of that name. *)
Fixpoint Object_Get (target : Object) (key : string) : option js_property :=
  match target with
  | [] => None
  | (k, v) :: rest =>
      if String.eqb k key then Some v else Object_Get rest key
  end.

Fixpoint prototype_method (methods : list (string * member_function))
    (name : string) : option member_function :=
  match methods with
  | [] => None
  | (k, m) :: rest =>
      if String.eqb k name then Some m else prototype_method rest name
  end.

Definition SetInternalFieldCount (n : Z) (z : FunctionTemplate)
  : FunctionTemplate :=
  mk_FunctionTemplate (template_callback z) n (prototype z) (ClassName z).

Definition NODE_SET_PROTOTYPE_METHOD (name : string) (m : member_function)
    (z : FunctionTemplate) : FunctionTemplate :=
  mk_FunctionTemplate (template_callback z) (InternalFieldCount z)
    ((name, m) :: prototype z) (ClassName z).

Definition SetClassName (name : string) (z : FunctionTemplate)
  : FunctionTemplate :=
  mk_FunctionTemplate (template_callback z) (InternalFieldCount z)
    (prototype z) name.

(** The macro [NODE_ZLIB_CLASS(mode, name)]. *)
Definition NODE_ZLIB_CLASS (mode : node_zlib_mode) (name : string)
    (target : Object) : Object :=
  let z := mk_FunctionTemplate (ZCtx_New mode) 0 [] "" in
  let z := SetInternalFieldCount 1 z in
  let z := NODE_SET_PROTOTYPE_METHOD "write" (ZCtx_Write mode) z in
  let z := NODE_SET_PROTOTYPE_METHOD "init" (ZCtx_Init mode) z in
  let z := SetClassName name z in
  Object_Set name (js_function z) target.

(** Modelled from the spec: the macro [NODE_DEFINE_CONSTANT] of node.h (not
    under src/), "constant export plumbing": the constant goes on [target]
    under its own name. *)
Definition NODE_DEFINE_CONSTANT (name : string) (constant : Z)
    (target : Object) : Object :=
  Object_Set name (js_integer constant) target.

(** [InitZlib(target)]. [ZLIB_VERNUM] and [ZLIB_VERSION] are macros of
    zlib.h and are taken as they come. The symbol [callback_sym] it also
    sets is not a property of [target]: it is the name, "callback", under
    which [After] looks for the callback of a request. *)
Definition InitZlib (ZLIB_VERNUM : Z) (ZLIB_VERSION : string)
    (target : Object) : Object :=
  let target := NODE_ZLIB_CLASS INFLATE "Inflate" target in
  let target := NODE_ZLIB_CLASS DEFLATE "Deflate" target in
  let target := NODE_ZLIB_CLASS INFLATERAW "InflateRaw" target in
  let target := NODE_ZLIB_CLASS DEFLATERAW "DeflateRaw" target in
  let target := NODE_ZLIB_CLASS GZIP "Gzip" target in
  let target := NODE_ZLIB_CLASS GUNZIP "Gunzip" target in
  let target := NODE_ZLIB_CLASS UNZIP "Unzip" target in
  let target := NODE_DEFINE_CONSTANT "Z_NO_FLUSH" Z_NO_FLUSH target in
  let target := NODE_DEFINE_CONSTANT "Z_PARTIAL_FLUSH" Z_PARTIAL_FLUSH target in
  let target := NODE_DEFINE_CONSTANT "Z_SYNC_FLUSH" Z_SYNC_FLUSH target in
  let target := NODE_DEFINE_CONSTANT "Z_FULL_FLUSH" Z_FULL_FLUSH target in
  let target := NODE_DEFINE_CONSTANT "Z_FINISH" Z_FINISH target in
  let target := NODE_DEFINE_CONSTANT "Z_BLOCK" Z_BLOCK target in
  let target := NODE_DEFINE_CONSTANT "Z_OK" Z_OK target in
  let target := NODE_DEFINE_CONSTANT "Z_STREAM_END" Z_STREAM_END target in
  let target := NODE_DEFINE_CONSTANT "Z_NEED_DICT" Z_NEED_DICT target in
  let target := NODE_DEFINE_CONSTANT "Z_ERRNO" Z_ERRNO target in
  let target := NODE_DEFINE_CONSTANT "Z_STREAM_ERROR" Z_STREAM_ERROR target in
  let target := NODE_DEFINE_CONSTANT "Z_DATA_ERROR" Z_DATA_ERROR target in
  let target := NODE_DEFINE_CONSTANT "Z_MEM_ERROR" Z_MEM_ERROR target in
  let target := NODE_DEFINE_CONSTANT "Z_BUF_ERROR" Z_BUF_ERROR target in
  let target :=
    NODE_DEFINE_CONSTANT "Z_VERSION_ERROR" Z_VERSION_ERROR target in
  let target :=
    NODE_DEFINE_CONSTANT "Z_NO_COMPRESSION" Z_NO_COMPRESSION target in
  let target := NODE_DEFINE_CONSTANT "Z_BEST_SPEED" Z_BEST_SPEED target in
  let target :=
    NODE_DEFINE_CONSTANT "Z_BEST_COMPRESSION" Z_BEST_COMPRESSION target in
  let target :=
    NODE_DEFINE_CONSTANT "Z_DEFAULT_COMPRESSION" Z_DEFAULT_COMPRESSION target in
  let target := NODE_DEFINE_CONSTANT "Z_FILTERED" Z_FILTERED target in
  let target := NODE_DEFINE_CONSTANT "Z_HUFFMAN_ONLY" Z_HUFFMAN_ONLY target in
  let target := NODE_DEFINE_CONSTANT "Z_RLE" Z_RLE target in
  let target := NODE_DEFINE_CONSTANT "Z_FIXED" Z_FIXED target in
  let target :=
    NODE_DEFINE_CONSTANT "Z_DEFAULT_STRATEGY" Z_DEFAULT_STRATEGY target in
  let target := NODE_DEFINE_CONSTANT "ZLIB_VERNUM" ZLIB_VERNUM target in
  Object_Set "ZLIB_VERSION" (js_string ZLIB_VERSION) target.

(** The name [InitZlib] gives the class of a variant. *)
Definition class_name (mode : node_zlib_mode) : string :=
  match mode with
  | DEFLATE => "Deflate"
  | INFLATE => "Inflate"
  | GZIP => "Gzip"
  | GUNZIP => "Gunzip"
  | DEFLATERAW => "DeflateRaw"
  | INFLATERAW => "InflateRaw"
  | UNZIP => "Unzip"
  end.

(** The names [InitZlib] sets, the last one set first. *)
Definition exported_names : list string :=
  map fst (InitZlib 0 "" []).

(** ** Worlds and buffers for the worked examples *)

(** The examples run on an x64 build unless they name another platform. *)
#[global] Existing Instance LP64.

(** A context of the given variant after [init(15, 6, 8, 0)] went through,
    over a transform that will give [replies]. *)
Definition ready_world (mode : node_zlib_mode) (replies : list (Z * Z * Z))
  : World (zl := scripted_zlib) :=
  snd (Init_args (zl := scripted_zlib) mode 15 6 8 0
         (fresh_world Z_OK replies)).

(** The buffers of the examples: 5 bytes of input, a shorter one of 4, and
    16 bytes of output. *)
Definition input_buffer : Buffer := mk_Buffer 4096 5.
Definition short_buffer : Buffer := mk_Buffer 4096 4.
Definition output_buffer : Buffer := mk_Buffer 8192 16.

(** A GUNZIP context with a write of the first two input bytes in flight:
    [Write] has accepted it and the caller has put the callback on the
    request object, which is object 0. *)
Definition two_bytes_in_flight (replies : list (Z * Z * Z))
  : World (zl := scripted_zlib) :=
  snd (set_callback 0
         (snd (Write GUNZIP Z_NO_FLUSH (JsBuffer input_buffer) 0 2
                 (JsBuffer output_buffer) 0 16 (ready_world GUNZIP replies)))).

(** * Properties *)

(** ** The integer conversions *)

Lemma Uint32Value_range n : 0 <= Uint32Value n < 2 ^ 32.
Proof. unfold Uint32Value. apply Z.mod_pos_bound. lia. Qed.

Lemma Uint32Value_small n : 0 <= n < 2 ^ 32 -> Uint32Value n = n.
Proof. intros H. unfold Uint32Value. apply Z.mod_small. exact H. Qed.

Lemma to_uInt_small n : 0 <= n < 2 ^ 32 -> to_uInt n = n.
Proof. intros H. unfold to_uInt. apply Z.mod_small. exact H. Qed.

Lemma to_uInt_Uint32Value n : to_uInt (Uint32Value n) = Uint32Value n.
Proof. apply to_uInt_small, Uint32Value_range. Qed.

Lemma to_size_t_small {dm : data_model} n :
  0 <= n < 2 ^ size_t_bits -> to_size_t n = n.
Proof. intros H. unfold to_size_t. apply Z.mod_small. exact H. Qed.

(** A 32-bit value fits [size_t] on every platform. *)
Lemma to_size_t_Uint32Value {dm : data_model} n :
  to_size_t (Uint32Value n) = Uint32Value n.
Proof.
  apply to_size_t_small. pose proof (Uint32Value_range n).
  destruct dm; cbn [size_t_bits]; lia.
Qed.

(** The sum of two 32-bit values does not wrap in a [size_t] of more than
    32 bits. *)
Lemma to_size_t_sum {dm : data_model} a b :
  32 < size_t_bits ->
  to_size_t (Uint32Value a + Uint32Value b) = Uint32Value a + Uint32Value b.
Proof.
  intros Hwide. apply to_size_t_small.
  pose proof (Uint32Value_range a). pose proof (Uint32Value_range b).
  destruct dm; cbn [size_t_bits] in *; lia.
Qed.

(** Whatever the width, the sum [size_t] holds is not above the true sum. *)
Lemma to_size_t_sum_le {dm : data_model} a b :
  to_size_t (Uint32Value a + Uint32Value b) <= Uint32Value a + Uint32Value b.
Proof.
  pose proof (Uint32Value_range a). pose proof (Uint32Value_range b).
  unfold to_size_t. apply Z.mod_le; [lia | ].
  destruct dm; cbn [size_t_bits]; lia.
Qed.

(** In a [size_t] of 32 bits a sum of 2^32 or more wraps. *)
Lemma to_size_t_sum_wraps {dm : data_model} a b :
  size_t_bits = 32 ->
  2 ^ 32 <= Uint32Value a + Uint32Value b ->
  to_size_t (Uint32Value a + Uint32Value b) =
  Uint32Value a + Uint32Value b - 2 ^ 32.
Proof.
  intros Hbits Hsum.
  pose proof (Uint32Value_range a). pose proof (Uint32Value_range b).
  unfold to_size_t. rewrite Hbits. symmetry.
  apply (Z.mod_unique _ (2 ^ 32) 1); lia.
Qed.

Lemma to_int_small n : - 2 ^ 31 <= n < 2 ^ 31 -> to_int n = n.
Proof.
  intros H. unfold to_int.
  destruct (Z.ltb_spec (n mod 2 ^ 32) (2 ^ 31)) as [Hlt | Hge].
  - destruct (Z.le_gt_cases 0 n) as [Hn | Hn].
    + apply Z.mod_small. lia.
    + exfalso.
      assert (E : n mod 2 ^ 32 = n + 2 ^ 32).
      { symmetry. apply (Z.mod_unique n (2 ^ 32) (-1)); lia. }
      lia.
  - destruct (Z.le_gt_cases 0 n) as [Hn | Hn].
    + exfalso. rewrite Z.mod_small in Hge; lia.
    + assert (E : n mod 2 ^ 32 = n + 2 ^ 32).
      { symmetry. apply (Z.mod_unique n (2 ^ 32) (-1)); lia. }
      lia.
Qed.

Lemma to_int_range x : - 2 ^ 31 <= to_int x < 2 ^ 31.
Proof.
  unfold to_int. pose proof (Z.mod_pos_bound x (2 ^ 32) ltac:(lia)).
  destruct (Z.ltb_spec (x mod 2 ^ 32) (2 ^ 31)); lia.
Qed.

Lemma to_int_large n : 2 ^ 31 <= n < 2 ^ 32 -> to_int n = n - 2 ^ 32.
Proof.
  intros H. unfold to_int. rewrite Z.mod_small by lia.
  destruct (Z.ltb_spec n (2 ^ 31)); lia.
Qed.

Lemma Uint32Value_periodic n k : Uint32Value (n + k * 2 ^ 32) = Uint32Value n.
Proof. unfold Uint32Value. apply Z_mod_plus_full. Qed.

Lemma to_int_Uint32Value n : - 2 ^ 31 <= n < 2 ^ 31 -> to_int (Uint32Value n) = n.
Proof.
  intros H. rewrite <- (to_int_small n H) at 2.
  unfold to_int, Uint32Value. rewrite Z.mod_mod by lia. reflexivity.
Qed.

Lemma mode_eqb_values a b : mode_eqb a b = (mode_value a =? mode_value b).
Proof. destruct a, b; reflexivity. Qed.

(** From here on the conversions are used through the lemmas above. *)
#[global] Opaque Uint32Value to_int to_uInt to_size_t.

Section Properties.

Context {zl : Zlib} {dm : data_model}.

(** Run the member functions on the world of the goal: unfold them, the
    monad and the record accessors, by value, and leave the integer
    conversions and zlib's answers as they are. *)
Ltac run :=
  cbv beta iota zeta delta
    [Init Init_args Write Process After ZCtx_destructor
     bind ret assert get_ctx update_ctx emit assign_strm zlib_call
     new_WorkReqWrap uv_queue_work callback_IsFunction MakeCallback
     set_callback Integer_New
     IsNull Buffer_HasInstance ToObject Buffer_Data Buffer_Length
     object_ data work_req work_mode
     mode_eqb orb negb
     ctx loop objects callbacks trace
     set_init_done_ set_strm_ set_level_ set_windowBits_ set_memLevel_
     set_strategy_ set_flush_ set_chunk_size_
     init_done_ strm_ level_ windowBits_ memLevel_ strategy_ flush_
     chunk_size_
     set_next_in set_avail_in set_next_out set_avail_out set_zalloc
     set_zfree set_opaque
     next_in avail_in next_out avail_out state zalloc zfree opaque
     fst snd].

Lemma Init_runs mode level windowBits memLevel strategy w :
  8 <= windowBits <= 15 ->
  let r := transform_init mode (cleared_hooks (strm_ (ctx w))) level
             (registry_windowBits mode windowBits) memLevel strategy in
  Init mode level windowBits memLevel strategy w =
  (if snd r =? Z_OK then Returned tt else AssertionFailed "err == Z_OK",
   mk_World
     (mk_ZCtx true (fst r) level (registry_windowBits mode windowBits)
        memLevel strategy Z_NO_FLUSH (chunk_size_ (ctx w)))
     (loop w) (objects w) (callbacks w)
     (trace w ++
      [init_event mode level (registry_windowBits mode windowBits) memLevel
         strategy (snd r)])).
Proof.
  intros Hw r. subst r.
  assert (H16 : to_int (windowBits + 16) = windowBits + 16)
    by (apply to_int_small; lia).
  assert (H32 : to_int (windowBits + 32) = windowBits + 32)
    by (apply to_int_small; lia).
  assert (Hneg : to_int (windowBits * -1) = - windowBits)
    by (rewrite to_int_small; lia).
  unfold transform_init, init_event, cleared_hooks, registry_windowBits,
    compressing.
  destruct mode; run; rewrite ?H16, ?H32, ?Hneg;
    match goal with |- context [?e =? Z_OK] => destruct (e =? Z_OK) end;
    reflexivity.
Qed.

Lemma checks_pass_iff level windowBits memLevel strategy :
  checks_pass level windowBits memLevel strategy = true <->
  valid_configuration level windowBits memLevel strategy.
Proof.
  unfold checks_pass, valid_configuration.
  rewrite !andb_true_iff, !orb_true_iff, !Z.leb_le, !Z.eqb_eq.
  tauto.
Qed.

Lemma Init_args_accepts mode a0 a1 a2 a3 w :
  checks_pass (to_int (Uint32Value a1)) (to_int (Uint32Value a0))
    (to_int (Uint32Value a2)) (to_int (Uint32Value a3)) = true ->
  Init_args mode a0 a1 a2 a3 w =
  Init mode (to_int (Uint32Value a1)) (to_int (Uint32Value a0))
    (to_int (Uint32Value a2)) (to_int (Uint32Value a3)) w.
Proof.
  unfold checks_pass. rewrite !andb_true_iff.
  intros [[[[Hw1 Hw2] [Hl1 Hl2]] [Hm1 Hm2]] Hs].
  unfold Init_args, bind, assert.
  rewrite Hw1, Hw2, Hl1, Hl2, Hm1, Hm2, Hs. reflexivity.
Qed.

Lemma Init_args_rejects mode a0 a1 a2 a3 w :
  checks_pass (to_int (Uint32Value a1)) (to_int (Uint32Value a0))
    (to_int (Uint32Value a2)) (to_int (Uint32Value a3)) = false ->
  exists msg,
    InvalidConfig msg /\
    Init_args mode a0 a1 a2 a3 w = (AssertionFailed msg, w).
Proof.
  unfold checks_pass, Init_args, bind, assert, InvalidConfig.
  set (windowBits := to_int (Uint32Value a0)).
  set (level := to_int (Uint32Value a1)).
  set (memLevel := to_int (Uint32Value a2)).
  set (strategy := to_int (Uint32Value a3)).
  intros H.
  destruct ((8 <=? windowBits) && (windowBits <=? 15));
    [ | exists "invalid windowBits"; auto ].
  destruct ((-1 <=? level) && (level <=? 9));
    [ | exists "invalid compression level"; auto ].
  destruct ((1 <=? memLevel) && (memLevel <=? 9));
    [ | exists "invalid memlevel"; auto ].
  cbn [andb] in H. rewrite H.
  exists "invalid strategy"; auto 6.
Qed.

(** Name the members of the world and of its context. *)
Ltac open_world w :=
  let c := fresh "c" in
  let s := fresh "s" in
  destruct w as [c ? ? ? ?]; destruct c as [? s ? ? ? ? ? ?]; destruct s;
  cbn [ctx loop objects callbacks trace init_done_ strm_ level_ windowBits_
       memLevel_ strategy_ flush_ chunk_size_ next_in avail_in next_out
       avail_out state zalloc zfree opaque] in *.

Ltac normalise_sizes :=
  rewrite ?to_size_t_Uint32Value, ?to_uInt_Uint32Value.

Lemma to_uInt_0 : to_uInt 0 = 0.
Proof. apply to_uInt_small. lia. Qed.

(** *** The bounds assertions, as computed and as meant *)

Lemma check_passes b off len :
  ~ check_exceeds (JsBuffer b) off len ->
  (to_size_t (Uint32Value off + Uint32Value len) <=? Buffer_Length b) = true.
Proof.
  intros H. apply Z.leb_le. apply Z.le_ngt. intros Hlt. apply H.
  exists b. split; [reflexivity | exact Hlt].
Qed.

Lemma check_stops v off len :
  check_exceeds v off len ->
  exists b,
    v = JsBuffer b /\
    (to_size_t (Uint32Value off + Uint32Value len) <=? Buffer_Length b)
    = false.
Proof.
  intros [b [-> Hlt]]. exists b. split; [reflexivity | ].
  apply Z.leb_gt. exact Hlt.
Qed.

(** A slice the assertion stops runs past its buffer, on every platform. *)
Lemma check_exceeds_slice v off len :
  check_exceeds v off len -> slice_exceeds v off len.
Proof.
  intros [b [-> Hlt]]. exists b. split; [reflexivity | ].
  pose proof (to_size_t_sum_le off len). lia.
Qed.

(** With a [size_t] of more than 32 bits the assertion stops every slice
    that runs past its buffer. *)
Lemma slice_exceeds_check v off len :
  32 < size_t_bits -> slice_exceeds v off len -> check_exceeds v off len.
Proof.
  intros Hwide [b [-> Hlt]]. exists b. split; [reflexivity | ].
  rewrite to_size_t_sum by exact Hwide. exact Hlt.
Qed.

Lemma check_exceeds_dec v off len :
  check_exceeds v off len \/ ~ check_exceeds v off len.
Proof.
  destruct v as [ | b | ].
  - right. intros [b [Hb _]]. discriminate Hb.
  - destruct (Z.lt_ge_cases (Buffer_Length b)
                (to_size_t (Uint32Value off + Uint32Value len)))
      as [Hlt | Hge].
    + left. exists b. split; [reflexivity | exact Hlt].
    + right. intros [b' [Hb Hlt]]. injection Hb as <-. lia.
  - right. intros [b [Hb _]]. discriminate Hb.
Qed.

(** What a request inside its buffers passes, on every platform. *)
Lemma valid_passes_checks a1 a2 a3 a4 a5 a6 :
  valid_request a1 a2 a3 a4 a5 a6 ->
  a1 <> JsOther /\ ~ check_exceeds a1 a2 a3 /\
  Buffer_HasInstance a4 = true /\ ~ check_exceeds a4 a5 a6.
Proof.
  intros [Hin [out_buf [-> Hout]]].
  assert (Hout' : ~ check_exceeds (JsBuffer out_buf) a5 a6).
  { intros H. apply check_exceeds_slice in H.
    destruct H as [b [Hb Hlt]]. injection Hb as <-. lia. }
  destruct Hin as [-> | [in_buf [-> Hin]]].
  - repeat split; try assumption; try discriminate.
    intros [b [Hb _]]. discriminate Hb.
  - repeat split; try assumption; try discriminate.
    intros H. apply check_exceeds_slice in H.
    destruct H as [b [Hb Hlt]]. injection Hb as <-. lia.
Qed.

(** *** Write, case by case *)

Lemma Write_flush_only mode a0 a2 a3 out_buf a5 a6 w :
  init_done_ (ctx w) = true ->
  ~ check_exceeds (JsBuffer out_buf) a5 a6 ->
  Write mode a0 JsNull a2 a3 (JsBuffer out_buf) a5 a6 w =
  (Returned (objects w),
   mk_World
     (staged_ctx (ctx w) nada 0
        (address (Buffer_Data out_buf + Uint32Value a5)) (Uint32Value a6)
        (Uint32Value a0))
     (loop w ++ [work_item mode (objects w)]) (S (objects w)) (callbacks w)
     (trace w)).
Proof.
  intros Hinit Hout. apply check_passes in Hout.
  open_world w. destruct out_buf as [out_data out_length].
  cbn [Buffer_Length] in Hout. subst.
  unfold staged_ctx, work_item. run. normalise_sizes.
  rewrite Hout, to_uInt_0. reflexivity.
Qed.

Lemma Write_buffer mode a0 in_buf a2 a3 out_buf a5 a6 w :
  init_done_ (ctx w) = true ->
  ~ check_exceeds (JsBuffer in_buf) a2 a3 ->
  ~ check_exceeds (JsBuffer out_buf) a5 a6 ->
  Write mode a0 (JsBuffer in_buf) a2 a3 (JsBuffer out_buf) a5 a6 w =
  (Returned (objects w),
   mk_World
     (staged_ctx (ctx w) (address (Buffer_Data in_buf + Uint32Value a2))
        (Uint32Value a3) (address (Buffer_Data out_buf + Uint32Value a5))
        (Uint32Value a6) (Uint32Value a0))
     (loop w ++ [work_item mode (objects w)]) (S (objects w)) (callbacks w)
     (trace w)).
Proof.
  intros Hinit Hin Hout. apply check_passes in Hin, Hout.
  open_world w. destruct in_buf as [in_data in_length].
  destruct out_buf as [out_data out_length].
  cbn [Buffer_Length] in Hin, Hout. subst.
  unfold staged_ctx, work_item. run. normalise_sizes.
  rewrite Hin. run. normalise_sizes. rewrite Hout. reflexivity.
Qed.

(** A request that passes the four checks is staged and queued. *)
Lemma Write_accepts mode a0 a1 a2 a3 a4 a5 a6 w :
  init_done_ (ctx w) = true ->
  a1 <> JsOther ->
  ~ check_exceeds a1 a2 a3 ->
  Buffer_HasInstance a4 = true ->
  ~ check_exceeds a4 a5 a6 ->
  Write mode a0 a1 a2 a3 a4 a5 a6 w =
  (Returned (objects w), written mode a0 a1 a2 a3 a4 a5 a6 w).
Proof.
  intros Hinit Hty Hin Hbuf Hout.
  destruct a4 as [ | out_buf | ]; try discriminate Hbuf.
  destruct a1 as [ | in_buf | ]; [ | | congruence ].
  - apply Write_flush_only; assumption.
  - apply Write_buffer; assumption.
Qed.

Lemma Write_runs mode a0 a1 a2 a3 a4 a5 a6 w :
  init_done_ (ctx w) = true ->
  valid_request a1 a2 a3 a4 a5 a6 ->
  Write mode a0 a1 a2 a3 a4 a5 a6 w =
  (Returned (objects w),
   mk_World
     (staged_ctx (ctx w) (fst (staged_input a1 a2 a3))
        (snd (staged_input a1 a2 a3))
        (address (Buffer_Data (ToObject a4) + Uint32Value a5))
        (Uint32Value a6) (Uint32Value a0))
     (loop w ++ [work_item mode (objects w)]) (S (objects w)) (callbacks w)
     (trace w)).
Proof.
  intros Hinit Hvalid.
  destruct (valid_passes_checks _ _ _ _ _ _ Hvalid) as [Hty [Hin [Hbuf Hout]]].
  apply Write_accepts; assumption.
Qed.

Lemma Write_before_init mode a0 a1 a2 a3 a4 a5 a6 w :
  init_done_ (ctx w) = false ->
  Write mode a0 a1 a2 a3 a4 a5 a6 w =
  (AssertionFailed "write before init", w).
Proof.
  intros Hinit. unfold Write, bind, get_ctx, assert. rewrite Hinit.
  reflexivity.
Qed.

Lemma Write_input_check_fails mode a0 a1 a2 a3 a4 a5 a6 w :
  init_done_ (ctx w) = true ->
  check_exceeds a1 a2 a3 ->
  Write mode a0 a1 a2 a3 a4 a5 a6 w =
  (AssertionFailed "in_off + in_len <= Buffer::Length(in_buf)", w).
Proof.
  intros Hinit Hin.
  destruct (check_stops _ _ _ Hin) as [[in_data in_length] [-> Hstop]].
  open_world w. cbn [Buffer_Length] in Hstop. subst.
  run. normalise_sizes. rewrite Hstop. reflexivity.
Qed.

Lemma Write_output_check_fails mode a0 a1 a2 a3 a4 a5 a6 w :
  init_done_ (ctx w) = true ->
  a1 <> JsOther ->
  ~ check_exceeds a1 a2 a3 ->
  check_exceeds a4 a5 a6 ->
  Write mode a0 a1 a2 a3 a4 a5 a6 w =
  (AssertionFailed "out_off + out_len <= Buffer::Length(out_buf)", w).
Proof.
  intros Hinit Hty Hin Hout.
  destruct (check_stops _ _ _ Hout) as [[out_data out_length] [-> Hstop]].
  cbn [Buffer_Length] in Hstop.
  destruct a1 as [ | [in_data in_length] | ]; [ | | congruence ].
  - open_world w. subst. run. normalise_sizes. rewrite Hstop. reflexivity.
  - apply check_passes in Hin. cbn [Buffer_Length] in Hin.
    open_world w. subst. run. normalise_sizes.
    rewrite Hin. run. normalise_sizes. rewrite Hstop. reflexivity.
Qed.

(** With a [size_t] of more than 32 bits the assertions stop every slice
    that runs past its buffer. *)
Lemma Write_input_exceeds mode a0 a1 a2 a3 a4 a5 a6 w :
  32 < size_t_bits ->
  init_done_ (ctx w) = true ->
  slice_exceeds a1 a2 a3 ->
  Write mode a0 a1 a2 a3 a4 a5 a6 w =
  (AssertionFailed "in_off + in_len <= Buffer::Length(in_buf)", w).
Proof.
  intros Hwide Hinit Hin. apply Write_input_check_fails; [assumption | ].
  apply slice_exceeds_check; assumption.
Qed.

Lemma Write_output_exceeds mode a0 a1 a2 a3 a4 a5 a6 w :
  32 < size_t_bits ->
  init_done_ (ctx w) = true ->
  a1 <> JsOther ->
  ~ slice_exceeds a1 a2 a3 ->
  slice_exceeds a4 a5 a6 ->
  Write mode a0 a1 a2 a3 a4 a5 a6 w =
  (AssertionFailed "out_off + out_len <= Buffer::Length(out_buf)", w).
Proof.
  intros Hwide Hinit Hty Hin Hout.
  apply Write_output_check_fails; try assumption.
  - intros H. apply Hin. apply check_exceeds_slice. exact H.
  - apply slice_exceeds_check; assumption.
Qed.

Lemma Write_passes_init_check mode a0 a1 a2 a3 a4 a5 a6 w :
  init_done_ (ctx w) = true ->
  fst (Write mode a0 a1 a2 a3 a4 a5 a6 w) <>
  AssertionFailed "write before init".
Proof.
  intros Hinit. open_world w. subst.
  destruct a1 as [ | [in_data in_length] | ];
    destruct a4 as [ | [out_data out_length] | ]; run;
    repeat match goal with
           | |- context [if ?b then _ else _] => destruct b
           end;
    discriminate.
Qed.

(** *** One work item *)

Lemma Process_runs mode work_req w :
  Process mode work_req w =
  (if snd (transform_step mode (strm_ (ctx w)) (flush_ (ctx w)))
      =? Z_STREAM_ERROR
   then AssertionFailed "err != Z_STREAM_ERROR"
   else Returned tt,
   processed mode w).
Proof.
  unfold processed, transform_step, step_event, compressing.
  destruct mode; run;
    match goal with
    | |- context [?e =? Z_STREAM_ERROR] => destruct (e =? Z_STREAM_ERROR)
    end;
    reflexivity.
Qed.

Lemma After_runs mode work_req w :
  After mode work_req w =
  if has_callback (object_ (data work_req)) w then
    (Returned tt,
     mk_World (ctx w) (loop w) (objects w) (callbacks w)
       (trace w ++ [completion work_req w]))
  else (AssertionFailed "Invalid callback", w).
Proof.
  unfold completion, has_callback. destruct work_req as [[h]].
  open_world w. run.
  match goal with |- context [if ?b then _ else _] => destruct b end;
    reflexivity.
Qed.

(** ** Initialisation *)

(** C2, as the code has it. [Init(args)] on a configuration inside the
    documented ranges (windowBits in 8..15, level in -1..9, memLevel in 1..9,
    a known strategy) passes its four range assertions, stores the
    configuration, the windowBits adjusted for the variant, hands the stream
    to zlib's initialisation once with that configuration, keeps the stream
    zlib hands back, and sets [init_done_]. It returns when zlib answers
    [Z_OK]; on any other answer it stops at the assertion [err == Z_OK], the
    context marked initialised all the same. On a configuration outside the
    ranges it stops at one of the four range assertions before anything is
    assigned: the world it leaves, and with it the context, is the one it was
    called in. *)
Theorem Init_validates_configuration mode a0 a1 a2 a3 w :
  let windowBits := to_int (Uint32Value a0) in
  let level := to_int (Uint32Value a1) in
  let memLevel := to_int (Uint32Value a2) in
  let strategy := to_int (Uint32Value a3) in
  let r :=
    transform_init mode (cleared_hooks (strm_ (ctx w))) level
      (registry_windowBits mode windowBits) memLevel strategy in
  (valid_configuration level windowBits memLevel strategy ->
   exists result w',
     Init_args mode a0 a1 a2 a3 w = (result, w') /\
     init_done_ (ctx w') = true /\
     configuration (ctx w') =
     (level, registry_windowBits mode windowBits, memLevel, strategy) /\
     strm_ (ctx w') = fst r /\
     trace w' =
     (trace w ++
      [init_event mode level (registry_windowBits mode windowBits) memLevel
         strategy (snd r)])%list /\
     loop w' = loop w /\
     (snd r = Z_OK -> result = Returned tt) /\
     (snd r <> Z_OK -> result = AssertionFailed "err == Z_OK"))
  /\
  (~ valid_configuration level windowBits memLevel strategy ->
   exists msg,
     InvalidConfig msg /\
     Init_args mode a0 a1 a2 a3 w = (AssertionFailed msg, w)).
Proof.
  intros windowBits level memLevel strategy r. split.
  - intros Hvalid.
    pose proof Hvalid as Hchecks. apply checks_pass_iff in Hchecks.
    destruct Hvalid as [Hw _].
    rewrite (Init_args_accepts mode a0 a1 a2 a3 w Hchecks).
    pose proof (Init_runs mode level windowBits memLevel strategy w Hw) as E.
    cbv zeta in E. fold windowBits level memLevel strategy. fold r in E.
    rewrite E. clearbody r.
    eexists. eexists. split; [reflexivity | ].
    cbn [ctx init_done_ strm_ trace loop].
    split; [reflexivity | ]. split; [reflexivity | ].
    split; [reflexivity | ]. split; [reflexivity | ].
    split; [reflexivity | ]. split.
    + intros Hok. rewrite Hok. reflexivity.
    + intros Herr. apply Z.eqb_neq in Herr. rewrite Herr. reflexivity.
  - intros Hinvalid. apply Init_args_rejects.
    fold windowBits level memLevel strategy.
    destruct (checks_pass level windowBits memLevel strategy) eqn:E;
      [ | reflexivity ].
    apply checks_pass_iff in E. contradiction.
Qed.


(** C10. Once the range checks of [Init(args)] have passed, [init_done_] is
    set whatever zlib's initialisation answers: it is assigned before
    [err == Z_OK] is asserted. When the answer is not [Z_OK] the call stops
    at that assertion with [init_done_] set, and [Write] on the context it
    leaves does not stop at its "write before init" assertion. *)
Theorem Init_sets_init_done_before_check mode a0 a1 a2 a3 w :
  let windowBits := to_int (Uint32Value a0) in
  let level := to_int (Uint32Value a1) in
  let memLevel := to_int (Uint32Value a2) in
  let strategy := to_int (Uint32Value a3) in
  valid_configuration level windowBits memLevel strategy ->
  exists r w',
    Init_args mode a0 a1 a2 a3 w = (r, w') /\
    init_done_ (ctx w') = true /\
    (snd (transform_init mode (cleared_hooks (strm_ (ctx w))) level
            (registry_windowBits mode windowBits) memLevel strategy) <> Z_OK ->
     r = AssertionFailed "err == Z_OK") /\
    (forall b0 b1 b2 b3 b4 b5 b6,
       fst (Write mode b0 b1 b2 b3 b4 b5 b6 w') <>
       AssertionFailed "write before init").
Proof.
  intros windowBits level memLevel strategy Hvalid.
  pose proof Hvalid as Hchecks. apply checks_pass_iff in Hchecks.
  destruct Hvalid as [Hw _].
  rewrite (Init_args_accepts mode a0 a1 a2 a3 w Hchecks).
  pose proof (Init_runs mode level windowBits memLevel strategy w Hw) as E.
  cbv zeta in E. fold windowBits level memLevel strategy. rewrite E.
  eexists. eexists. split; [reflexivity | ]. split; [reflexivity | ]. split.
  - intros Herr. apply Z.eqb_neq in Herr. rewrite Herr. reflexivity.
  - intros. apply Write_passes_init_check. reflexivity.
Qed.

(** ** Write *)

(** C3, as the code has it. Where [size_t] has more than 32 bits, a
    [Write] whose input slice or whose output slice runs past the end of its
    buffer stops at an assertion and leaves the world as it was: nothing is
    staged, no request object is made and no work is queued. On an
    initialised context the assertion is the bounds check of that slice.
    (The input is the flush-only marker or a buffer.) On every platform, an
    output slice of length 0 inside its buffer is not rejected: the [Write]
    returns and queues its work item. *)
Theorem Write_rejects_out_of_bounds mode a0 a1 a2 a3 a4 a5 a6 w :
  (32 < size_t_bits ->
   a1 <> JsOther ->
   slice_exceeds a1 a2 a3 \/ slice_exceeds a4 a5 a6 ->
   exists msg,
     Write mode a0 a1 a2 a3 a4 a5 a6 w = (AssertionFailed msg, w) /\
     (init_done_ (ctx w) = true -> OutOfBounds msg))
  /\
  (init_done_ (ctx w) = true ->
   valid_request a1 a2 a3 a4 a5 a6 ->
   Uint32Value a6 = 0 ->
   exists w',
     Write mode a0 a1 a2 a3 a4 a5 a6 w = (Returned (objects w), w') /\
     loop w' = (loop w ++ [mk_queued_work (request (objects w)) mode])%list).
Proof.
  split.
  - intros Hwide Hty Hexceeds.
    destruct (init_done_ (ctx w)) eqn:Hinit.
    + assert (Hdec : slice_exceeds a1 a2 a3 \/ ~ slice_exceeds a1 a2 a3).
      { destruct a1 as [ | b | ].
        - right. intros [b [Hb _]]. discriminate.
        - destruct (Z.lt_ge_cases (Buffer_Length b)
                      (Uint32Value a2 + Uint32Value a3)) as [Hlt | Hge].
          + left. exists b. split; [reflexivity | exact Hlt].
          + right. intros [b' [Hb Hlt]]. injection Hb as <-. lia.
        - right. intros [b [Hb _]]. discriminate. }
      destruct Hdec as [Hin | Hin].
      * exists "in_off + in_len <= Buffer::Length(in_buf)". split.
        -- apply Write_input_exceeds; assumption.
        -- intros _. left. reflexivity.
      * destruct Hexceeds as [Hin' | Hout]; [contradiction | ].
        exists "out_off + out_len <= Buffer::Length(out_buf)". split.
        -- apply Write_output_exceeds; assumption.
        -- intros _. right. reflexivity.
    + exists "write before init". split.
      * apply Write_before_init. exact Hinit.
      * intros Habs. discriminate.
  - intros Hinit Hvalid _.
    rewrite (Write_runs mode a0 a1 a2 a3 a4 a5 a6 w Hinit Hvalid).
    eexists. split; reflexivity.
Qed.

(** C4. On an initialised context, a [Write] whose slices lie inside their
    buffers returns the new request object and leaves: [avail_in] the input
    length and [next_in] the input's base plus its offset, or 0 and the
    address of [nada] for the flush-only marker; [avail_out] the output
    length and [next_out] the output's base plus its offset; [flush_] the
    requested flush mode (as an [int]); and the queue longer by the one work
    item of this request. No call to zlib is made in [Write]. *)
Theorem Write_stages_request mode a0 a1 a2 a3 a4 a5 a6 w :
  init_done_ (ctx w) = true ->
  valid_request a1 a2 a3 a4 a5 a6 ->
  exists w',
    Write mode a0 a1 a2 a3 a4 a5 a6 w = (Returned (objects w), w') /\
    (a1 = JsNull ->
     avail_in (strm_ (ctx w')) = 0 /\ next_in (strm_ (ctx w')) = nada) /\
    (forall in_buf,
       a1 = JsBuffer in_buf ->
       avail_in (strm_ (ctx w')) = Uint32Value a3 /\
       next_in (strm_ (ctx w')) =
       address (Buffer_Data in_buf + Uint32Value a2)) /\
    (forall out_buf,
       a4 = JsBuffer out_buf ->
       avail_out (strm_ (ctx w')) = Uint32Value a6 /\
       next_out (strm_ (ctx w')) =
       address (Buffer_Data out_buf + Uint32Value a5)) /\
    flush_ (ctx w') = to_int (Uint32Value a0) /\
    (0 <= a0 < 2 ^ 31 -> flush_ (ctx w') = a0) /\
    loop w' =
    (loop w ++
     [mk_queued_work (mk_uv_work_t (mk_WorkReqWrap (objects w))) mode])%list /\
    trace w' = trace w.
Proof.
  intros Hinit Hvalid.
  rewrite (Write_runs mode a0 a1 a2 a3 a4 a5 a6 w Hinit Hvalid).
  eexists. split; [reflexivity | ].
  cbn [ctx loop trace staged_ctx strm_ flush_ avail_in next_in avail_out
       next_out].
  split; [intros ->; split; reflexivity | ].
  split; [intros in_buf ->; split; reflexivity | ].
  split; [intros out_buf ->; split; reflexivity | ].
  split; [reflexivity | ].
  split; [ | split; reflexivity ].
  intros Hflush. rewrite Uint32Value_small by lia. apply to_int_small. lia.
Qed.

(** ** The work item of a Write *)

Lemma step_event_is_transform_call mode s flush err :
  is_transform_call (step_event mode s flush err) = true.
Proof. destruct mode; reflexivity. Qed.

Lemma Process_leaves mode work_req w :
  snd (Process mode work_req w) = processed mode w.
Proof. rewrite Process_runs. reflexivity. Qed.


(** The world [Write] leaves for a request it accepts. *)
Lemma Write_leaves mode a0 a1 a2 a3 a4 a5 a6 w :
  init_done_ (ctx w) = true ->
  valid_request a1 a2 a3 a4 a5 a6 ->
  snd (Write mode a0 a1 a2 a3 a4 a5 a6 w) =
  mk_World
    (staged_ctx (ctx w) (fst (staged_input a1 a2 a3))
       (snd (staged_input a1 a2 a3))
       (address (Buffer_Data (ToObject a4) + Uint32Value a5))
       (Uint32Value a6) (Uint32Value a0))
    (loop w ++ [work_item mode (objects w)]) (S (objects w)) (callbacks w)
    (trace w).
Proof. intros Hinit Hvalid. rewrite Write_runs by assumption. reflexivity. Qed.


Lemma Integer_New_small v : 0 <= v < 2 ^ 31 -> Integer_New v = v.
Proof. intros H. unfold Integer_New. apply to_int_small. lia. Qed.

(** C7. A Write is accepted, the caller puts its callback on the request,
    and [Process] has run. [After] then hands the callback the stream's
    [avail_in] and [avail_out] as the transform left them: the caller's
    "input length minus delivered avail_in" is the number of bytes the
    transform consumed, and "output length minus delivered avail_out" the
    number it produced. (The counters are below 2^31, as they are for buffers
    of less than 2 GiB: [Integer::New] takes a 32-bit int.) *)
Theorem After_reports_counters mode a0 a1 a2 a3 a4 a5 a6 w :
  init_done_ (ctx w) = true ->
  valid_request a1 a2 a3 a4 a5 a6 ->
  let in_len := snd (staged_input a1 a2 a3) in
  let out_len := Uint32Value a6 in
  let written := snd (Write mode a0 a1 a2 a3 a4 a5 a6 w) in
  let transformed :=
    snd (Process mode (request (objects w))
           (snd (set_callback (objects w) written))) in
  0 <= avail_in (strm_ (ctx transformed)) < 2 ^ 31 ->
  0 <= avail_out (strm_ (ctx transformed)) < 2 ^ 31 ->
  exists delivered_in delivered_out,
    After mode (request (objects w)) transformed =
    (Returned tt,
     mk_World (ctx transformed) (loop transformed) (objects transformed)
       (callbacks transformed)
       (trace transformed ++
        [call_MakeCallback (objects w) "callback"
           [delivered_in; delivered_out]])) /\
    delivered_in = avail_in (strm_ (ctx transformed)) /\
    delivered_out = avail_out (strm_ (ctx transformed)) /\
    in_len - delivered_in =
    avail_in (strm_ (ctx written)) - avail_in (strm_ (ctx transformed)) /\
    out_len - delivered_out =
    avail_out (strm_ (ctx written)) - avail_out (strm_ (ctx transformed)).
Proof.
  intros Hinit Hvalid in_len out_len written transformed Hin Hout.
  assert (Hwritten :
    written =
    mk_World
      (staged_ctx (ctx w) (fst (staged_input a1 a2 a3)) in_len
         (address (Buffer_Data (ToObject a4) + Uint32Value a5)) out_len
         (Uint32Value a0))
      (loop w ++ [work_item mode (objects w)]) (S (objects w)) (callbacks w)
      (trace w))
    by (apply Write_leaves; assumption).
  assert (Htransformed :
    transformed = processed mode (snd (set_callback (objects w) written)))
    by apply Process_leaves.
  assert (Hcb : has_callback (objects w) transformed = true).
  { rewrite Htransformed. unfold has_callback, processed, set_callback.
    cbn [snd callbacks existsb]. rewrite Nat.eqb_refl. reflexivity. }
  rewrite After_runs. unfold request at 1. cbn [data object_].
  rewrite Hcb. unfold completion, request. cbn [data object_].
  rewrite (Integer_New_small _ Hin), (Integer_New_small _ Hout).
  exists (avail_in (strm_ (ctx transformed))).
  exists (avail_out (strm_ (ctx transformed))).
  split; [reflexivity | ]. split; [reflexivity | ]. split; [reflexivity | ].
  rewrite Hwritten. split; reflexivity.
Qed.

(** C8, as the code has it. A work item whose transform answers anything
    but [Z_STREAM_ERROR] gets through [Process]. With the request's callback
    in place, [After] then makes one [MakeCallback] whose arguments are
    [avail_in] and [avail_out] of the stream, nothing else: the status code,
    [Z_DATA_ERROR] included, is not among them and is kept nowhere in the
    context. Without the callback, [After] stops at "Invalid callback" and
    calls nothing. On [Z_STREAM_ERROR] the item stops at the assertion in
    [Process], before any callback. *)
Theorem completion_carries_counters_only mode work_req w :
  let s := strm_ (ctx w) in
  let flush := flush_ (ctx w) in
  let post := fst (transform_step mode s flush) in
  let err := snd (transform_step mode s flush) in
  let transformed :=
    mk_World (set_strm_ post (ctx w)) (loop w) (objects w) (callbacks w)
      (trace w ++ [step_event mode s flush err]) in
  (err <> Z_STREAM_ERROR ->
   Process mode work_req w = (Returned tt, transformed) /\
   (has_callback (object_ (data work_req)) w = true ->
    After mode work_req transformed =
    (Returned tt,
     mk_World (set_strm_ post (ctx w)) (loop w) (objects w) (callbacks w)
       (trace w ++
        [step_event mode s flush err;
         call_MakeCallback (object_ (data work_req)) "callback"
           [Integer_New (avail_in post); Integer_New (avail_out post)]]))) /\
   (has_callback (object_ (data work_req)) w = false ->
    After mode work_req transformed =
    (AssertionFailed "Invalid callback", transformed)))
  /\
  (err = Z_STREAM_ERROR ->
   Process mode work_req w =
   (AssertionFailed "err != Z_STREAM_ERROR", transformed)).
Proof.
  intros s flush post err transformed.
  rewrite Process_runs. fold s flush err. split.
  - intros Herr. apply Z.eqb_neq in Herr. rewrite Herr.
    split; [reflexivity | ]. split.
    + intros Hcb. rewrite After_runs.
      assert (Hcb' : has_callback (object_ (data work_req)) transformed
                     = true) by exact Hcb.
      rewrite Hcb'. unfold completion, transformed.
      cbn [ctx loop objects callbacks trace strm_ set_strm_].
      rewrite <- app_assoc. reflexivity.
    + intros Hcb. rewrite After_runs.
      assert (Hcb' : has_callback (object_ (data work_req)) transformed
                     = false) by exact Hcb.
      rewrite Hcb'. reflexivity.
  - intros Herr. apply Z.eqb_eq in Herr. rewrite Herr. reflexivity.
Qed.

(** ** Destruction *)

(** The destructor of a compressing context passes the stream to
    [deflateEnd] whatever [init_done_] says. *)
Lemma destructor_ignores_init_done_ mode w :
  compressing mode = true ->
  ZCtx_destructor mode w =
  (Returned tt,
   mk_World (set_strm_ (fst (deflateEnd (strm_ (ctx w)))) (ctx w)) (loop w)
     (objects w) (callbacks w)
     (trace w ++
      [call_deflateEnd (strm_ (ctx w)) (snd (deflateEnd (strm_ (ctx w))))])).
Proof. destruct mode; intros H; try discriminate H; reflexivity. Qed.

(** C9, where the code departs from it. The destructor of an UNZIP context
    makes no call at all: the stream [Init] had [inflateInit2] set up is left
    as it is, never passed to [inflateEnd]. The destructor of an INFLATE
    context, next to it, passes the stream to [inflateEnd] once. Neither
    looks at [init_done_]. *)
Theorem destructor_skips_UNZIP w :
  ZCtx_destructor UNZIP w = (Returned tt, w) /\
  ZCtx_destructor INFLATE w =
  (Returned tt,
   mk_World (set_strm_ (fst (inflateEnd (strm_ (ctx w)))) (ctx w)) (loop w)
     (objects w) (callbacks w)
     (trace w ++
      [call_inflateEnd (strm_ (ctx w)) (snd (inflateEnd (strm_ (ctx w))))])).
Proof. split; reflexivity. Qed.

(** ** Further properties of Write *)

Lemma Write_input_no_buffer_fails mode a0 a2 a3 a4 a5 a6 w :
  init_done_ (ctx w) = true ->
  Write mode a0 JsOther a2 a3 a4 a5 a6 w =
  (AssertionFailed "Buffer::HasInstance(args[1])", w).
Proof. intros Hinit. open_world w. subst. reflexivity. Qed.

Lemma Write_output_no_buffer_check mode a0 a1 a2 a3 a4 a5 a6 w :
  init_done_ (ctx w) = true ->
  a1 <> JsOther ->
  ~ check_exceeds a1 a2 a3 ->
  Buffer_HasInstance a4 = false ->
  Write mode a0 a1 a2 a3 a4 a5 a6 w =
  (AssertionFailed "Buffer::HasInstance(args[4])", w).
Proof.
  intros Hinit Hty Hin Hout.
  destruct a1 as [ | [in_data in_length] | ]; [ | | congruence ].
  - open_world w. subst. destruct a4; [ | discriminate Hout | ]; reflexivity.
  - apply check_passes in Hin. cbn [Buffer_Length] in Hin.
    open_world w. subst.
    destruct a4; [ | discriminate Hout | ]; run; normalise_sizes;
      rewrite Hin; reflexivity.
Qed.


(** With a [size_t] of more than 32 bits, what passes the checks lies
    inside its buffers. *)
Lemma checks_are_valid a1 a2 a3 a4 a5 a6 :
  32 < size_t_bits ->
  a1 <> JsOther ->
  ~ check_exceeds a1 a2 a3 ->
  Buffer_HasInstance a4 = true ->
  ~ check_exceeds a4 a5 a6 ->
  valid_request a1 a2 a3 a4 a5 a6.
Proof.
  intros Hwide Hty Hin Hbuf Hout. split.
  - destruct a1 as [ | b | ]; [left; reflexivity | | congruence].
    right. exists b. split; [reflexivity | ].
    apply Z.le_ngt. intros Hlt. apply Hin. apply slice_exceeds_check.
    + exact Hwide.
    + exists b. split; [reflexivity | exact Hlt].
  - destruct a4 as [ | b | ]; try discriminate Hbuf.
    exists b. split; [reflexivity | ].
    apply Z.le_ngt. intros Hlt. apply Hout. apply slice_exceeds_check.
    + exact Hwide.
    + exists b. split; [reflexivity | exact Hlt].
Qed.

(** [Write] goes one of the six ways of [Write_result]. *)
Lemma Write_result_holds mode a0 a1 a2 a3 a4 a5 a6 w :
  Write_result mode a0 a1 a2 a3 a4 a5 a6 w
    (Write mode a0 a1 a2 a3 a4 a5 a6 w).
Proof.
  destruct (init_done_ (ctx w)) eqn:Hinit;
    [ | rewrite Write_before_init by assumption;
        apply Write_uninitialised; assumption ].
  destruct (check_exceeds_dec a1 a2 a3) as [Hin | Hin];
    [ rewrite Write_input_check_fails by assumption;
      apply Write_input_out_of_bounds; assumption | ].
  assert (Hty : a1 = JsOther \/ a1 <> JsOther)
    by (destruct a1; [right | right | left]; congruence).
  destruct Hty as [-> | Hty];
    [ rewrite Write_input_no_buffer_fails by assumption;
      apply Write_input_no_buffer; [assumption | reflexivity] | ].
  destruct (check_exceeds_dec a4 a5 a6) as [Hout | Hout];
    [ rewrite Write_output_check_fails by assumption;
      apply Write_output_out_of_bounds; assumption | ].
  destruct (Buffer_HasInstance a4) eqn:Hbuf.
  - rewrite Write_accepts by assumption.
    apply Write_accepted; assumption.
  - rewrite Write_output_no_buffer_check by assumption.
    apply Write_output_no_buffer; assumption.
Qed.

(** Either the world is as it was, or the request was accepted. *)
Lemma Write_world mode a0 a1 a2 a3 a4 a5 a6 w :
  snd (Write mode a0 a1 a2 a3 a4 a5 a6 w) = w \/
  snd (Write mode a0 a1 a2 a3 a4 a5 a6 w) =
  written mode a0 a1 a2 a3 a4 a5 a6 w.
Proof.
  destruct (Write_result_holds mode a0 a1 a2 a3 a4 a5 a6 w);
    [left | left | left | left | left | right]; reflexivity.
Qed.

(** X1. [Write] returns whenever the context is initialised and the
    request is valid (the input the flush-only marker or a slice inside its
    buffer, the output a slice inside its buffer). Where [size_t] has more
    than 32 bits it returns only then. What it returns is the request object
    it has just made. *)
Theorem Write_returns_iff mode a0 a1 a2 a3 a4 a5 a6 w :
  (init_done_ (ctx w) = true ->
   valid_request a1 a2 a3 a4 a5 a6 ->
   exists w', Write mode a0 a1 a2 a3 a4 a5 a6 w = (Returned (objects w), w'))
  /\
  (32 < size_t_bits ->
   forall h w',
     Write mode a0 a1 a2 a3 a4 a5 a6 w = (Returned h, w') ->
     init_done_ (ctx w) = true /\ valid_request a1 a2 a3 a4 a5 a6)
  /\
  (forall h w',
     Write mode a0 a1 a2 a3 a4 a5 a6 w = (Returned h, w') ->
     h = objects w).
Proof.
  split; [ | split ].
  - intros Hinit Hvalid.
    rewrite (Write_runs mode a0 a1 a2 a3 a4 a5 a6 w Hinit Hvalid).
    eexists. reflexivity.
  - intros Hwide h w' HWrite.
    pose proof (Write_result_holds mode a0 a1 a2 a3 a4 a5 a6 w) as R.
    rewrite HWrite in R. inversion R; subst.
    split; [assumption | ]. apply checks_are_valid; assumption.
  - intros h w' HWrite.
    pose proof (Write_result_holds mode a0 a1 a2 a3 a4 a5 a6 w) as R.
    rewrite HWrite in R. inversion R; subst. reflexivity.
Qed.

(** X2. A [Write] that fails, at whichever assertion, has changed nothing:
    no member of the context is assigned, no request object is made, nothing
    is queued and nothing is logged. *)
Theorem Write_failure_changes_nothing mode a0 a1 a2 a3 a4 a5 a6 w msg w' :
  Write mode a0 a1 a2 a3 a4 a5 a6 w = (AssertionFailed msg, w') ->
  w' = w.
Proof.
  intros HWrite.
  pose proof (Write_result_holds mode a0 a1 a2 a3 a4 a5 a6 w) as R.
  rewrite HWrite in R. inversion R; subst; reflexivity.
Qed.


(** X4. With the flush-only marker as input, [Write] does not look at
    [in_off] and [in_len]: whatever they are, the outcome is the same. *)
Theorem Write_flush_only_ignores_offsets mode a0 a2 a3 b2 b3 a4 a5 a6 w :
  Write mode a0 JsNull a2 a3 a4 a5 a6 w =
  Write mode a0 JsNull b2 b3 a4 a5 a6 w.
Proof.
  assert (Hnull : ~ check_exceeds JsNull b2 b3)
    by (intros [b [Hb _]]; discriminate Hb).
  destruct (Write_result_holds mode a0 JsNull a2 a3 a4 a5 a6 w)
    as [Hinit | Hinit Hty | Hinit Hin | Hinit Hty Hin Hbuf
        | Hinit Hty Hin Hout | Hinit Hty Hin Hbuf Hout].
  - symmetry. apply Write_before_init. exact Hinit.
  - discriminate Hty.
  - destruct Hin as [b [Hb _]]. discriminate Hb.
  - symmetry. apply Write_output_no_buffer_check; assumption.
  - symmetry. apply Write_output_check_fails; assumption.
  - rewrite (Write_accepts mode a0 JsNull b2 b3 a4 a5 a6 w Hinit Hty Hnull
               Hbuf Hout).
    reflexivity.
Qed.

(** X5. A [Write] that returns assigns the four stream members, [flush_]
    and [chunk_size_] (the output length, as an [int]) and nothing else: zlib's
    internal state and the allocator hooks of the stream, [init_done_] and
    the configuration are as they were, and no callback is set. *)
Theorem Write_keeps_transform_state mode a0 a1 a2 a3 a4 a5 a6 w :
  init_done_ (ctx w) = true ->
  valid_request a1 a2 a3 a4 a5 a6 ->
  let w' := snd (Write mode a0 a1 a2 a3 a4 a5 a6 w) in
  state (strm_ (ctx w')) = state (strm_ (ctx w)) /\
  zalloc (strm_ (ctx w')) = zalloc (strm_ (ctx w)) /\
  zfree (strm_ (ctx w')) = zfree (strm_ (ctx w)) /\
  opaque (strm_ (ctx w')) = opaque (strm_ (ctx w)) /\
  init_done_ (ctx w') = true /\
  configuration (ctx w') = configuration (ctx w) /\
  chunk_size_ (ctx w') = to_int (Uint32Value a6) /\
  callbacks w' = callbacks w /\
  objects w' = S (objects w).
Proof.
  intros Hinit Hvalid w'. subst w'.
  rewrite Write_leaves by assumption.
  cbn [ctx callbacks objects staged_ctx strm_ init_done_ chunk_size_ state
       zalloc zfree opaque].
  rewrite Hinit. repeat split; reflexivity.
Qed.

(** X6. [Write] does not look for a write in flight. A second valid
    [Write] while the work of the first is still queued returns the next
    request object, queues a second work item behind the first, and replaces
    what the first had staged: the context's stream and [flush_] are those of
    the second request. *)
Theorem second_Write_replaces_staging mode
    a0 a1 a2 a3 a4 a5 a6 b0 b1 b2 b3 b4 b5 b6 w :
  init_done_ (ctx w) = true ->
  valid_request a1 a2 a3 a4 a5 a6 ->
  valid_request b1 b2 b3 b4 b5 b6 ->
  let w1 := snd (Write mode a0 a1 a2 a3 a4 a5 a6 w) in
  let w2 := snd (Write mode b0 b1 b2 b3 b4 b5 b6 w1) in
  fst (Write mode b0 b1 b2 b3 b4 b5 b6 w1) = Returned (S (objects w)) /\
  loop w2 =
  (loop w ++
   [mk_queued_work (request (objects w)) mode;
    mk_queued_work (request (S (objects w))) mode])%list /\
  strm_ (ctx w2) = staged_stream (strm_ (ctx w)) b1 b2 b3 b4 b5 b6 /\
  flush_ (ctx w2) = to_int (Uint32Value b0).
Proof.
  intros Hinit Ha Hb w1 w2.
  assert (Hw1 : w1 = written mode a0 a1 a2 a3 a4 a5 a6 w)
    by (apply Write_leaves; assumption).
  assert (Hinit1 : init_done_ (ctx w1) = true)
    by (rewrite Hw1; exact Hinit).
  subst w2.
  rewrite (Write_runs mode b0 b1 b2 b3 b4 b5 b6 w1 Hinit1 Hb).
  cbn [fst snd ctx loop]. rewrite Hw1.
  cbn [written objects loop ctx staged_ctx strm_ flush_ state zalloc zfree
       opaque].
  split; [reflexivity | ]. split; [ | split; reflexivity ].
  rewrite <- app_assoc. reflexivity.
Qed.

(** X7. The numeric arguments count modulo 2^32, as [Uint32Value] takes
    them: adding a multiple of 2^32 to any of them changes neither [Init]
    nor [Write]. *)
Theorem arguments_modulo_2_32 mode k0 k1 k2 k3 k4 :
  (forall a0 a1 a2 a3 w,
     Init_args mode (a0 + k0 * 2 ^ 32) (a1 + k1 * 2 ^ 32) (a2 + k2 * 2 ^ 32)
       (a3 + k3 * 2 ^ 32) w =
     Init_args mode a0 a1 a2 a3 w)
  /\
  (forall a0 a1 a2 a3 a4 a5 a6 w,
     Write mode (a0 + k0 * 2 ^ 32) a1 (a2 + k1 * 2 ^ 32) (a3 + k2 * 2 ^ 32) a4
       (a5 + k3 * 2 ^ 32) (a6 + k4 * 2 ^ 32) w =
     Write mode a0 a1 a2 a3 a4 a5 a6 w).
Proof.
  split.
  - intros. unfold Init_args. rewrite !Uint32Value_periodic. reflexivity.
  - intros. unfold Write. rewrite !Uint32Value_periodic. reflexivity.
Qed.

(** ** Further properties of Init *)

Lemma in_range_true lo hi x :
  lo <= x <= hi -> (lo <=? x) && (x <=? hi) = true.
Proof. intros H. apply andb_true_iff. rewrite !Z.leb_le. exact H. Qed.

Lemma in_range_false lo hi x :
  ~ lo <= x <= hi -> (lo <=? x) && (x <=? hi) = false.
Proof.
  intros H. destruct ((lo <=? x) && (x <=? hi)) eqn:E; [ | reflexivity ].
  apply andb_true_iff in E. rewrite !Z.leb_le in E. contradiction.
Qed.

(** X8. The four range assertions of [Init(args)] come in the order
    windowBits, level, memLevel, strategy: the message names the first
    argument, in that order, that is out of range, and a later one is only
    looked at when the earlier ones are in range. *)
Theorem Init_args_assertion_order mode a0 a1 a2 a3 w :
  let windowBits := to_int (Uint32Value a0) in
  let level := to_int (Uint32Value a1) in
  let memLevel := to_int (Uint32Value a2) in
  let strategy := to_int (Uint32Value a3) in
  (~ 8 <= windowBits <= 15 ->
   Init_args mode a0 a1 a2 a3 w = (AssertionFailed "invalid windowBits", w))
  /\
  (8 <= windowBits <= 15 -> ~ -1 <= level <= 9 ->
   Init_args mode a0 a1 a2 a3 w =
   (AssertionFailed "invalid compression level", w))
  /\
  (8 <= windowBits <= 15 -> -1 <= level <= 9 -> ~ 1 <= memLevel <= 9 ->
   Init_args mode a0 a1 a2 a3 w = (AssertionFailed "invalid memlevel", w))
  /\
  (8 <= windowBits <= 15 -> -1 <= level <= 9 -> 1 <= memLevel <= 9 ->
   ~ valid_configuration level windowBits memLevel strategy ->
   Init_args mode a0 a1 a2 a3 w = (AssertionFailed "invalid strategy", w)).
Proof.
  intros windowBits level memLevel strategy.
  unfold Init_args, bind, assert.
  fold windowBits level memLevel strategy.
  split; [ | split; [ | split ] ].
  - intros Hw. rewrite (in_range_false _ _ _ Hw). reflexivity.
  - intros Hw Hl.
    rewrite (in_range_true _ _ _ Hw), (in_range_false _ _ _ Hl). reflexivity.
  - intros Hw Hl Hm.
    rewrite (in_range_true _ _ _ Hw), (in_range_true _ _ _ Hl),
      (in_range_false _ _ _ Hm).
    reflexivity.
  - intros Hw Hl Hm Hinvalid.
    rewrite (in_range_true _ _ _ Hw), (in_range_true _ _ _ Hl),
      (in_range_true _ _ _ Hm).
    destruct ((strategy =? Z_FILTERED) || (strategy =? Z_HUFFMAN_ONLY)
              || (strategy =? Z_RLE) || (strategy =? Z_FIXED)
              || (strategy =? Z_DEFAULT_STRATEGY)) eqn:Hs; [ | reflexivity ].
    exfalso. apply Hinvalid. apply checks_pass_iff. unfold checks_pass.
    rewrite (in_range_true _ _ _ Hw), (in_range_true _ _ _ Hl),
      (in_range_true _ _ _ Hm), Hs.
    reflexivity.
Qed.

(** An [int] configuration inside the ranges comes through the unsigned
    reading of the arguments unchanged. *)
Lemma Init_args_in_range mode a0 a1 a2 a3 w :
  valid_configuration a1 a0 a2 a3 ->
  Init_args mode a0 a1 a2 a3 w = Init mode a1 a0 a2 a3 w.
Proof.
  intros Hvalid.
  assert (E0 : to_int (Uint32Value a0) = a0)
    by (apply to_int_Uint32Value; destruct Hvalid as [H _]; lia).
  assert (E1 : to_int (Uint32Value a1) = a1)
    by (apply to_int_Uint32Value; destruct Hvalid as [_ [H _]]; lia).
  assert (E2 : to_int (Uint32Value a2) = a2)
    by (apply to_int_Uint32Value; destruct Hvalid as [_ [_ [H _]]]; lia).
  assert (E3 : to_int (Uint32Value a3) = a3).
  { apply to_int_Uint32Value. destruct Hvalid as [_ [_ [_ H]]].
    unfold Z_FILTERED, Z_HUFFMAN_ONLY, Z_RLE, Z_FIXED, Z_DEFAULT_STRATEGY in H.
    lia. }
  rewrite Init_args_accepts
    by (rewrite E0, E1, E2, E3; apply checks_pass_iff; exact Hvalid).
  rewrite E0, E1, E2, E3. reflexivity.
Qed.

(** X9. A configuration inside the ranges comes through the conversions of
    [Init(args)] as it was passed, the level -1 ([Z_DEFAULT_COMPRESSION])
    included although it is read as an unsigned 32-bit value first: the
    members hold the level, memLevel and strategy passed, and the windowBits
    passed adjusted by the variant. *)
Theorem Init_args_stores_configuration mode a0 a1 a2 a3 w :
  valid_configuration a1 a0 a2 a3 ->
  let w' := snd (Init_args mode a0 a1 a2 a3 w) in
  init_done_ (ctx w') = true /\
  configuration (ctx w') = (a1, registry_windowBits mode a0, a2, a3).
Proof.
  intros Hvalid w'. subst w'.
  rewrite (Init_args_in_range mode a0 a1 a2 a3 w Hvalid).
  pose proof (Init_runs mode a1 a0 a2 a3 w (proj1 Hvalid)) as E.
  cbv zeta in E. rewrite E. split; reflexivity.
Qed.

(** X10. [Init] does not look at [init_done_]: on a context that is
    initialised already it runs as on a new one. The windowBits adjustment
    starts from the argument, not from the member the first [Init] left, and
    zlib's initialisation is called a second time with no release of the
    first stream in between. *)
Theorem Init_twice mode l1 wb1 m1 s1 l2 wb2 m2 s2 w :
  8 <= wb1 <= 15 ->
  8 <= wb2 <= 15 ->
  let w1 := snd (Init mode l1 wb1 m1 s1 w) in
  let w2 := snd (Init mode l2 wb2 m2 s2 w1) in
  init_done_ (ctx w1) = true /\
  configuration (ctx w2) = (l2, registry_windowBits mode wb2, m2, s2) /\
  exists err1 err2,
    trace w2 =
    (trace w ++
     [init_event mode l1 (registry_windowBits mode wb1) m1 s1 err1;
      init_event mode l2 (registry_windowBits mode wb2) m2 s2 err2])%list.
Proof.
  intros H1 H2 w1 w2.
  pose proof (Init_runs mode l1 wb1 m1 s1 w H1) as E1. cbv zeta in E1.
  pose proof (Init_runs mode l2 wb2 m2 s2 w1 H2) as E2. cbv zeta in E2.
  assert (Hw1 : w1 = snd (Init mode l1 wb1 m1 s1 w)) by reflexivity.
  assert (Hw2 : w2 = snd (Init mode l2 wb2 m2 s2 w1)) by reflexivity.
  rewrite E2 in Hw2. rewrite E1 in Hw1. cbn [snd] in Hw1, Hw2.
  clearbody w1 w2. clear E1 E2. subst w2.
  split; [ rewrite Hw1; reflexivity | ].
  split; [ reflexivity | ].
  cbn [trace]. rewrite Hw1. cbn [trace ctx strm_].
  eexists. eexists. rewrite <- app_assoc. reflexivity.
Qed.

(** X11. What [Init] touches besides the configuration. The stream goes to
    zlib's initialisation with the three allocator hooks cleared and its
    other members as they were, and what zlib hands back is the context's
    stream; [flush_] is reset to [Z_NO_FLUSH]; [chunk_size_], the work queue,
    the request objects and the callbacks are not touched. *)
Theorem Init_frame mode level windowBits memLevel strategy w :
  8 <= windowBits <= 15 ->
  let w' := snd (Init mode level windowBits memLevel strategy w) in
  (exists handed,
     strm_ (ctx w') =
     fst (transform_init mode handed level
            (registry_windowBits mode windowBits) memLevel strategy) /\
     zalloc handed = Z_NULL /\ zfree handed = Z_NULL /\
     opaque handed = Z_NULL /\
     next_in handed = next_in (strm_ (ctx w)) /\
     avail_in handed = avail_in (strm_ (ctx w)) /\
     next_out handed = next_out (strm_ (ctx w)) /\
     avail_out handed = avail_out (strm_ (ctx w)) /\
     state handed = state (strm_ (ctx w))) /\
  flush_ (ctx w') = Z_NO_FLUSH /\
  chunk_size_ (ctx w') = chunk_size_ (ctx w) /\
  loop w' = loop w /\ objects w' = objects w /\ callbacks w' = callbacks w.
Proof.
  intros Hw w'. subst w'.
  pose proof (Init_runs mode level windowBits memLevel strategy w Hw) as E.
  cbv zeta in E. rewrite E. cbn [snd ctx strm_ flush_ chunk_size_ loop objects
                                 callbacks].
  split; [ | repeat split ].
  exists (cleared_hooks (strm_ (ctx w))).
  split; [reflexivity | ].
  destruct (strm_ (ctx w)). repeat split.
Qed.

(** ** After and the callback *)

Lemma fresh_object_has_no_callback w :
  callbacks_allocated w -> has_callback (objects w) w = false.
Proof.
  unfold callbacks_allocated, has_callback. intros H.
  induction H as [ | object l Hlt _ IH ]; [reflexivity | ].
  cbn [existsb]. rewrite IH.
  destruct (Nat.eqb_spec (objects w) object) as [Heq | _]; [lia | reflexivity].
Qed.

(** X12. [Write] makes the request object but sets no callback on it. When
    every callback set so far is on an object made so far, [After] on the
    request a [Write] has just returned, with nothing setting its callback
    in between, stops at "Invalid callback" and calls nothing; the transform
    has run by then. *)
Theorem After_needs_callback mode a0 a1 a2 a3 a4 a5 a6 w :
  callbacks_allocated w ->
  init_done_ (ctx w) = true ->
  valid_request a1 a2 a3 a4 a5 a6 ->
  let w1 := snd (Write mode a0 a1 a2 a3 a4 a5 a6 w) in
  let w2 := snd (Process mode (request (objects w)) w1) in
  After mode (request (objects w)) w2 =
  (AssertionFailed "Invalid callback", w2).
Proof.
  intros Hcb Hinit Hvalid w1 w2.
  rewrite After_runs.
  assert (Hnone : has_callback (object_ (data (request (objects w)))) w2
                  = false).
  { subst w2 w1. rewrite Process_leaves, Write_leaves by assumption.
    unfold has_callback. cbn [request data object_ processed callbacks].
    apply fresh_object_has_no_callback. exact Hcb. }
  rewrite Hnone. reflexivity.
Qed.

(** ** The destructor after Init *)

Lemma destructor_runs mode w :
  mode <> UNZIP ->
  ZCtx_destructor mode w =
  (Returned tt,
   mk_World (set_strm_ (fst (transform_end mode (strm_ (ctx w)))) (ctx w))
     (loop w) (objects w) (callbacks w)
     (trace w ++
      [end_event mode (strm_ (ctx w))
         (snd (transform_end mode (strm_ (ctx w))))])).
Proof. intros H. destruct mode; try reflexivity. congruence. Qed.

(** X13. The life of a context of any variant but UNZIP: [Init], then the
    destructor. The destructor returns whatever zlib's release answers, and
    whether or not the initialisation had answered [Z_OK]; the calls made
    are the initialisation and then the release of the same family
    ([deflateEnd] after [deflateInit2], [inflateEnd] after [inflateInit2]),
    and the stream released is the one the initialisation handed back. *)
Theorem Init_then_destructor mode level windowBits memLevel strategy w :
  mode <> UNZIP ->
  8 <= windowBits <= 15 ->
  let r := transform_init mode (cleared_hooks (strm_ (ctx w))) level
             (registry_windowBits mode windowBits) memLevel strategy in
  let w1 := snd (Init mode level windowBits memLevel strategy w) in
  exists w2,
    ZCtx_destructor mode w1 = (Returned tt, w2) /\
    trace w2 =
    (trace w ++
     [init_event mode level (registry_windowBits mode windowBits) memLevel
        strategy (snd r);
      end_event mode (fst r) (snd (transform_end mode (fst r)))])%list /\
    strm_ (ctx w2) = fst (transform_end mode (fst r)).
Proof.
  intros Hmode Hw r w1.
  pose proof (Init_runs mode level windowBits memLevel strategy w Hw) as E.
  cbv zeta in E. fold r in E.
  assert (Hw1 : w1 = snd (Init mode level windowBits memLevel strategy w))
    by reflexivity.
  rewrite E in Hw1. cbn [snd] in Hw1. clearbody w1 r. clear E.
  rewrite (destructor_runs mode w1 Hmode).
  eexists. split; [reflexivity | ].
  rewrite Hw1. cbn [trace ctx strm_ set_strm_].
  split; [ | reflexivity ].
  rewrite <- app_assoc. reflexivity.
Qed.

(** ** Calls in any order *)

(** [Init(args)] leaves the world as it was or goes on into [Init] with
    windowBits in range. *)
Lemma Init_args_world mode a0 a1 a2 a3 w :
  snd (Init_args mode a0 a1 a2 a3 w) = w \/
  exists level windowBits memLevel strategy,
    8 <= windowBits <= 15 /\
    snd (Init_args mode a0 a1 a2 a3 w) =
    snd (Init mode level windowBits memLevel strategy w).
Proof.
  destruct (checks_pass (to_int (Uint32Value a1)) (to_int (Uint32Value a0))
              (to_int (Uint32Value a2)) (to_int (Uint32Value a3))) eqn:E.
  - right. rewrite (Init_args_accepts mode a0 a1 a2 a3 w E).
    apply checks_pass_iff in E. destruct E as [Hw _].
    eexists. exists (to_int (Uint32Value a0)). eexists. eexists.
    split; [exact Hw | reflexivity].
  - left. destruct (Init_args_rejects mode a0 a1 a2 a3 w E) as [msg [_ ->]].
    reflexivity.
Qed.

Lemma init_event_is_no_step mode level windowBits memLevel strategy err :
  is_transform_call (init_event mode level windowBits memLevel strategy err)
  = false /\
  is_completion (init_event mode level windowBits memLevel strategy err)
  = false.
Proof. destruct mode; split; reflexivity. Qed.

Lemma step_event_is_no_completion mode s flush err :
  is_completion (step_event mode s flush err) = false.
Proof. destruct mode; reflexivity. Qed.

(** What one call adds to the log, the queue and the request objects. *)
Lemma run_step_accounts mode s w :
  exists t,
    trace (run_step mode s w) = (trace w ++ t)%list /\
    (List.length (filter is_transform_call t) =
     if is_Process s then 1 else 0)%nat /\
    (List.length (filter is_completion t) <= if is_After s then 1 else 0)%nat /\
    (List.length (loop (run_step mode s w)) + objects w =
     List.length (loop w) + objects (run_step mode s w))%nat /\
    (List.length (loop (run_step mode s w)) <=
     List.length (loop w) + if is_Write s then 1 else 0)%nat.
Proof.
  destruct s as [a0 a1 a2 a3 | a0 a1 a2 a3 a4 a5 a6 | object | work_req
                 | work_req]; cbn [run_step is_Process is_After is_Write].
  - destruct (Init_args_world mode a0 a1 a2 a3 w)
      as [-> | [level [windowBits [memLevel [strategy [Hw ->]]]]]].
    + exists []. rewrite app_nil_r. cbn. repeat split; lia.
    + pose proof (Init_runs mode level windowBits memLevel strategy w Hw) as E.
      cbv zeta in E. rewrite E. cbn [snd trace loop objects].
      eexists. split; [reflexivity | ].
      cbn [filter].
      destruct (init_event_is_no_step mode level
                  (registry_windowBits mode windowBits) memLevel strategy
                  (snd (transform_init mode (cleared_hooks (strm_ (ctx w)))
                          level (registry_windowBits mode windowBits)
                          memLevel strategy))) as [-> ->].
      cbn. repeat split; lia.
  - exists []. rewrite app_nil_r.
    destruct (Write_world mode a0 a1 a2 a3 a4 a5 a6 w) as [-> | ->].
    + cbn. repeat split; lia.
    + cbn [written trace loop objects filter List.length].
      rewrite length_app. cbn [List.length]. repeat split; lia.
  - exists []. rewrite app_nil_r. cbn. repeat split; lia.
  - rewrite Process_leaves. unfold processed. cbn [trace loop objects].
    eexists. split; [reflexivity | ].
    cbn [filter]. rewrite step_event_is_transform_call.
    rewrite step_event_is_no_completion. cbn. repeat split; lia.
  - rewrite After_runs.
    destruct (has_callback (object_ (data work_req)) w).
    + cbn [snd trace loop objects]. eexists. split; [reflexivity | ].
      cbn. repeat split; lia.
    + exists []. rewrite app_nil_r. cbn. repeat split; lia.
Qed.

(** What one call leaves of [init_done_] and of the configuration. *)
Lemma run_step_keeps_configuration mode s w :
  (init_done_ (ctx w) = true ->
   init_done_ (ctx (run_step mode s w)) = true) /\
  (is_Init s = false ->
   init_done_ (ctx (run_step mode s w)) = init_done_ (ctx w) /\
   configuration (ctx (run_step mode s w)) = configuration (ctx w)).
Proof.
  destruct s as [a0 a1 a2 a3 | a0 a1 a2 a3 a4 a5 a6 | object | work_req
                 | work_req]; cbn [run_step is_Init].
  - split; [ | intros H; discriminate H ].
    destruct (Init_args_world mode a0 a1 a2 a3 w)
      as [-> | [level [windowBits [memLevel [strategy [Hw ->]]]]]];
      [ intros H; exact H | ].
    pose proof (Init_runs mode level windowBits memLevel strategy w Hw) as E.
    cbv zeta in E. rewrite E. intros _. reflexivity.
  - destruct (Write_world mode a0 a1 a2 a3 a4 a5 a6 w) as [-> | ->];
      split; auto.
  - split; auto.
  - rewrite Process_leaves. split; auto.
  - rewrite After_runs.
    destruct (has_callback (object_ (data work_req)) w); split; auto.
Qed.

(** X14. However [init], [write], the setting of callbacks, [Process] and
    [After] are called, in whatever order and with whatever arguments, and
    whichever of them stop at an assertion: once [init_done_] is set it
    stays set, and calls other than [init] leave [init_done_] and the
    configuration (level, windowBits, memLevel, strategy) as they were. *)
Theorem calls_keep_configuration mode ss w :
  (init_done_ (ctx w) = true ->
   init_done_ (ctx (run_steps mode ss w)) = true) /\
  (forallb (fun s => negb (is_Init s)) ss = true ->
   init_done_ (ctx (run_steps mode ss w)) = init_done_ (ctx w) /\
   configuration (ctx (run_steps mode ss w)) = configuration (ctx w)).
Proof.
  revert w. induction ss as [ | s ss IH ]; intros w.
  - split; auto.
  - unfold run_steps. cbn [fold_left]. fold (run_steps mode ss (run_step mode s w)).
    destruct (IH (run_step mode s w)) as [IHdone IHkeep].
    destruct (run_step_keeps_configuration mode s w) as [Hdone Hkeep].
    split.
    + intros H. apply IHdone, Hdone, H.
    + cbn [forallb]. intros H. apply andb_true_iff in H. destruct H as [Hs Hss].
      apply negb_true_iff in Hs.
      destruct (IHkeep Hss) as [E1 E2]. destruct (Hkeep Hs) as [E3 E4].
      split; congruence.
Qed.

(** X15. However the calls are ordered, the log only grows, and what is
    added holds exactly one call of the transform ([deflate] or [inflate])
    for each [Process] and at most one callback invocation for each
    [After]; the work queue grows by as many items as request objects are
    made, at most one for each [write]. *)
Theorem calls_are_accounted_for mode ss w :
  exists t,
    trace (run_steps mode ss w) = (trace w ++ t)%list /\
    (List.length (filter is_transform_call t) =
     List.length (filter is_Process ss))%nat /\
    (List.length (filter is_completion t) <= List.length (filter is_After ss))%nat /\
    (List.length (loop (run_steps mode ss w)) + objects w =
     List.length (loop w) + objects (run_steps mode ss w))%nat /\
    (List.length (loop (run_steps mode ss w)) <=
     List.length (loop w) + List.length (filter is_Write ss))%nat.
Proof.
  revert w. induction ss as [ | s ss IH ]; intros w.
  - exists []. rewrite app_nil_r. cbn. repeat split; lia.
  - unfold run_steps. cbn [fold_left]. fold (run_steps mode ss (run_step mode s w)).
    destruct (IH (run_step mode s w)) as [t2 [Ht2 [Hp2 [Ha2 [Hq2 Hw2]]]]].
    destruct (run_step_accounts mode s w) as [t1 [Ht1 [Hp1 [Ha1 [Hq1 Hw1]]]]].
    exists (t1 ++ t2)%list.
    rewrite Ht2, Ht1, <- app_assoc, !filter_app, !length_app.
    cbn [filter].
    destruct (is_Process s), (is_After s), (is_Write s); cbn [List.length];
      repeat split; lia.
Qed.

(** ** Module registration *)

Lemma Object_Get_past (exports target : Object) key :
  ~ In key (map fst exports) ->
  Object_Get (exports ++ target)%list key = Object_Get target key.
Proof.
  induction exports as [ | [k v] exports IH ]; intros Hnot; [reflexivity | ].
  cbn [app Object_Get]. cbn [map fst In] in Hnot.
  destruct (String.eqb_spec k key) as [Heq | _]; [tauto | ].
  apply IH. tauto.
Qed.

(** X16. [InitZlib] puts one class on [target] for each of the seven
    variants, under the variant's name: its constructor is [New] of that
    variant, its prototype has [write] and [init] of that same variant, and
    it has one internal field. No name is set twice, so no export hides
    another; what [target] held under other names is still there; and the
    two version properties are the ones of zlib.h. *)
Theorem InitZlib_exports_every_variant ZLIB_VERNUM ZLIB_VERSION target :
  (forall mode,
     exists z,
       Object_Get (InitZlib ZLIB_VERNUM ZLIB_VERSION target)
         (class_name mode) = Some (js_function z) /\
       template_callback z = ZCtx_New mode /\
       prototype_method (prototype z) "write" = Some (ZCtx_Write mode) /\
       prototype_method (prototype z) "init" = Some (ZCtx_Init mode) /\
       InternalFieldCount z = 1 /\
       ClassName z = class_name mode) /\
  NoDup exported_names /\
  (forall key,
     ~ In key exported_names ->
     Object_Get (InitZlib ZLIB_VERNUM ZLIB_VERSION target) key =
     Object_Get target key) /\
  Object_Get (InitZlib ZLIB_VERNUM ZLIB_VERSION target) "ZLIB_VERSION" =
  Some (js_string ZLIB_VERSION) /\
  Object_Get (InitZlib ZLIB_VERNUM ZLIB_VERSION target) "ZLIB_VERNUM" =
  Some (js_integer ZLIB_VERNUM).
Proof.
  split; [ | split; [ | split; [ | split ] ] ].
  - intros mode. destruct mode; eexists; repeat split.
  - assert (E : nodup string_dec exported_names = exported_names)
      by (vm_compute; reflexivity).
    rewrite <- E. apply NoDup_nodup.
  - intros key Hnot.
    change (InitZlib ZLIB_VERNUM ZLIB_VERSION target)
      with (InitZlib ZLIB_VERNUM ZLIB_VERSION [] ++ target)%list.
    apply Object_Get_past. exact Hnot.
  - reflexivity.
  - reflexivity.
Qed.

(** X17. The constants [InitZlib] exports for the compression level and
    for the strategy are ones [Init] takes: with any of them as level and
    strategy, and windowBits and memLevel in range, [Init(args)] passes its
    four assertions and goes on with those very values. *)
Theorem exported_constants_pass_Init ZLIB_VERNUM ZLIB_VERSION target
    level_name strategy_name level strategy mode windowBits memLevel w :
  In level_name
    ["Z_NO_COMPRESSION"; "Z_BEST_SPEED"; "Z_BEST_COMPRESSION";
     "Z_DEFAULT_COMPRESSION"] ->
  In strategy_name
    ["Z_FILTERED"; "Z_HUFFMAN_ONLY"; "Z_RLE"; "Z_FIXED";
     "Z_DEFAULT_STRATEGY"] ->
  Object_Get (InitZlib ZLIB_VERNUM ZLIB_VERSION target) level_name =
  Some (js_integer level) ->
  Object_Get (InitZlib ZLIB_VERNUM ZLIB_VERSION target) strategy_name =
  Some (js_integer strategy) ->
  8 <= windowBits <= 15 ->
  1 <= memLevel <= 9 ->
  Init_args mode windowBits level memLevel strategy w =
  Init mode level windowBits memLevel strategy w.
Proof.
  intros Hlevel Hstrategy Glevel Gstrategy Hw Hm.
  apply Init_args_in_range.
  assert (Hl : -1 <= level <= 9).
  { cbn [In] in Hlevel.
    destruct Hlevel as [<- | [<- | [<- | [<- | []]]]];
      injection Glevel as <-; vm_compute; split; intros H; discriminate H. }
  assert (Hs : strategy = Z_FILTERED \/ strategy = Z_HUFFMAN_ONLY \/
               strategy = Z_RLE \/ strategy = Z_FIXED \/
               strategy = Z_DEFAULT_STRATEGY).
  { cbn [In] in Hstrategy.
    destruct Hstrategy as [<- | [<- | [<- | [<- | [<- | []]]]]];
      injection Gstrategy as <-; tauto. }
  unfold valid_configuration. tauto.
Qed.

(** ** What is stored and what is delivered *)

(** X18. [Write] stores the output length in [chunk_size_], and nothing
    reads it: with any other value in that member, [Process], [After] and
    the destructor have the same outcome, make the same calls, and leave the
    same stream. *)
Theorem chunk_size_is_never_read mode work_req v w :
  let w_v :=
    mk_World (set_chunk_size_ v (ctx w)) (loop w) (objects w) (callbacks w)
      (trace w) in
  (fst (Process mode work_req w_v) = fst (Process mode work_req w) /\
   trace (snd (Process mode work_req w_v)) =
   trace (snd (Process mode work_req w)) /\
   strm_ (ctx (snd (Process mode work_req w_v))) =
   strm_ (ctx (snd (Process mode work_req w)))) /\
  (fst (After mode work_req w_v) = fst (After mode work_req w) /\
   trace (snd (After mode work_req w_v)) =
   trace (snd (After mode work_req w))) /\
  (fst (ZCtx_destructor mode w_v) = fst (ZCtx_destructor mode w) /\
   trace (snd (ZCtx_destructor mode w_v)) =
   trace (snd (ZCtx_destructor mode w)) /\
   strm_ (ctx (snd (ZCtx_destructor mode w_v))) =
   strm_ (ctx (snd (ZCtx_destructor mode w)))).
Proof.
  intros w_v. split; [ | split ].
  - rewrite !Process_runs. subst w_v. repeat split.
  - rewrite !After_runs. subst w_v.
    unfold has_callback. cbn [callbacks].
    destruct (existsb (Nat.eqb (object_ (data work_req))) (callbacks w));
      split; reflexivity.
  - subst w_v. destruct mode; repeat split.
Qed.

(** X19. [After] hands the counters over through [Integer::New], which
    takes a 32-bit [int], while [avail_out] is an unsigned 32-bit member: a
    remaining output space of 2^31 bytes or more reaches the callback as a
    negative number, 2^32 less than the member. *)
Theorem After_wraps_large_counters mode work_req w :
  has_callback (object_ (data work_req)) w = true ->
  0 <= avail_in (strm_ (ctx w)) < 2 ^ 31 ->
  2 ^ 31 <= avail_out (strm_ (ctx w)) < 2 ^ 32 ->
  After mode work_req w =
  (Returned tt,
   mk_World (ctx w) (loop w) (objects w) (callbacks w)
     (trace w ++
      [call_MakeCallback (object_ (data work_req)) "callback"
         [avail_in (strm_ (ctx w));
          avail_out (strm_ (ctx w)) - 2 ^ 32]])).
Proof.
  intros Hcb Hin Hout.
  rewrite After_runs, Hcb. unfold completion, Integer_New.
  rewrite (to_int_small (avail_in (strm_ (ctx w)))) by lia.
  rewrite (to_int_large (avail_out (strm_ (ctx w))) Hout).
  reflexivity.
Qed.

(** X20. Where [size_t] has 32 bits the sum in the bounds assertion
    wraps: an input slice whose offset plus length is 2^32 or more, and
    2^32 less than that within the buffer's length, runs past the buffer
    and yet passes the assertion. The [Write] returns, stages the length
    asked for and queues its work item. *)
Theorem Write_accepts_wrapped_slice mode a0 in_buf a2 a3 out_buf a5 a6 w :
  size_t_bits = 32 ->
  init_done_ (ctx w) = true ->
  Buffer_Length in_buf < 2 ^ 32 ->
  2 ^ 32 <= Uint32Value a2 + Uint32Value a3 ->
  Uint32Value a2 + Uint32Value a3 - 2 ^ 32 <= Buffer_Length in_buf ->
  Uint32Value a5 + Uint32Value a6 <= Buffer_Length out_buf ->
  slice_exceeds (JsBuffer in_buf) a2 a3 /\
  exists w',
    Write mode a0 (JsBuffer in_buf) a2 a3 (JsBuffer out_buf) a5 a6 w =
    (Returned (objects w), w') /\
    avail_in (strm_ (ctx w')) = Uint32Value a3 /\
    loop w' = (loop w ++ [mk_queued_work (request (objects w)) mode])%list.
Proof.
  intros Hbits Hinit Hlen Hsum Hwrapped Hout. split.
  - exists in_buf. split; [reflexivity | lia].
  - assert (Hin' : ~ check_exceeds (JsBuffer in_buf) a2 a3).
    { intros [b [Hb Hlt]]. injection Hb as <-.
      rewrite (to_size_t_sum_wraps a2 a3 Hbits Hsum) in Hlt. lia. }
    assert (Hout' : ~ check_exceeds (JsBuffer out_buf) a5 a6).
    { intros H. apply check_exceeds_slice in H.
      destruct H as [b [Hb Hlt]]. injection Hb as <-. lia. }
    rewrite (Write_buffer mode a0 in_buf a2 a3 out_buf a5 a6 w Hinit Hin'
               Hout').
    eexists. split; [reflexivity | ]. split; reflexivity.
Qed.

End Properties.

(** ** The binding at work on the scripted transform *)

Transparent Uint32Value to_int to_uInt to_size_t.

Lemma Init_validates_configuration_witness :
  (valid_configuration 6 15 8 0 /\
   exists w',
     Init_args (zl := scripted_zlib) GZIP 15 6 8 0 (fresh_world Z_OK []) =
     (Returned tt, w') /\
     init_done_ (ctx w') = true /\
     configuration (ctx w') = (6, 31, 8, 0) /\
     trace w' = [call_deflateInit2 6 Z_DEFLATED 31 8 0 Z_OK])
  /\
  (~ valid_configuration 6 7 8 0 /\
   exists msg,
     InvalidConfig msg /\
     Init_args (zl := scripted_zlib) GZIP 7 6 8 0 (fresh_world Z_OK []) =
     (AssertionFailed msg, fresh_world Z_OK [])).
Proof.
  assert (Hvalid : valid_configuration 6 15 8 0).
  { unfold valid_configuration, Z_DEFAULT_STRATEGY. lia. }
  assert (Hinvalid : ~ valid_configuration 6 7 8 0).
  { unfold valid_configuration. lia. }
  split; split; try assumption.
  - destruct (proj1 (Init_validates_configuration (zl := scripted_zlib) GZIP
                       15 6 8 0 (fresh_world Z_OK [])) Hvalid)
      as [result [w' [Hrun [Hdone [Hconf [_ [Htrace [_ [Hok _]]]]]]]]].
    exists w'. rewrite Hrun, (Hok eq_refl).
    split; [reflexivity | ]. split; [exact Hdone | ].
    split; [exact Hconf | exact Htrace].
  - exact (proj2 (Init_validates_configuration (zl := scripted_zlib) GZIP
                    7 6 8 0 (fresh_world Z_OK [])) Hinvalid).
Defined.

(** C2 as the specification words it fails: a configuration inside the
    ranges does not make [Init] succeed by itself. [init(8, 6, 8, 0)] on a
    GZIP context passes the four range assertions and calls [deflateInit2]
    with windowBits 24; when zlib answers [Z_STREAM_ERROR] to that, [Init]
    stops at the assertion [err == Z_OK]. *)
Lemma valid_configuration_can_stop_Init :
  valid_configuration 6 8 8 0 /\
  fst (Init_args (zl := scripted_zlib) GZIP 8 6 8 0
         (fresh_world Z_STREAM_ERROR [])) =
  AssertionFailed "err == Z_OK" /\
  trace (snd (Init_args (zl := scripted_zlib) GZIP 8 6 8 0
                (fresh_world Z_STREAM_ERROR []))) =
  [call_deflateInit2 6 Z_DEFLATED 24 8 0 Z_STREAM_ERROR].
Proof.
  split.
  - unfold valid_configuration, Z_DEFAULT_STRATEGY. lia.
  - vm_compute. split; reflexivity.
Qed.


Lemma Init_sets_init_done_before_check_witness :
  valid_configuration 6 15 8 0 /\
  exists r w',
    Init_args (zl := scripted_zlib) DEFLATE 15 6 8 0
      (fresh_world Z_MEM_ERROR []) = (r, w') /\
    init_done_ (ctx w') = true /\
    r = AssertionFailed "err == Z_OK".
Proof.
  assert (Hvalid : valid_configuration 6 15 8 0).
  { unfold valid_configuration, Z_DEFAULT_STRATEGY. lia. }
  split; [exact Hvalid | ].
  destruct (Init_sets_init_done_before_check (zl := scripted_zlib) DEFLATE
              15 6 8 0 (fresh_world Z_MEM_ERROR []) Hvalid)
    as [r [w' [Hrun [Hdone [Herr _]]]]].
  exists r, w'. split; [exact Hrun | ]. split; [exact Hdone | ].
  apply Herr. vm_compute. intros H. discriminate H.
Defined.

(** C3 as the specification words it fails: an output view of length 0 is
    accepted. On a DEFLATE context after [init], the flush-only
    [write(Z_FINISH, null, 0, 0, out, 0, 0)] with a 16-byte [out] returns its
    request object and queues the work item. *)
Lemma Write_accepts_empty_output :
  Uint32Value 0 = 0 /\
  fst (Write (zl := scripted_zlib) DEFLATE Z_FINISH JsNull 0 0
         (JsBuffer output_buffer) 0 0 (ready_world DEFLATE [])) =
  Returned 0%nat /\
  loop (snd (Write (zl := scripted_zlib) DEFLATE Z_FINISH JsNull 0 0
               (JsBuffer output_buffer) 0 0 (ready_world DEFLATE []))) =
  [mk_queued_work (mk_uv_work_t (mk_WorkReqWrap 0)) DEFLATE].
Proof. vm_compute. repeat split; reflexivity. Qed.

Lemma Write_rejects_out_of_bounds_witness :
  32 < size_t_bits (dm := LP64) /\
  JsBuffer short_buffer <> JsOther /\
  (slice_exceeds (JsBuffer short_buffer) 2 3 \/
   slice_exceeds (JsBuffer output_buffer) 0 16) /\
  exists msg,
    Write (zl := scripted_zlib) INFLATE Z_NO_FLUSH (JsBuffer short_buffer) 2 3
      (JsBuffer output_buffer) 0 16 (ready_world INFLATE []) =
    (AssertionFailed msg, ready_world INFLATE []) /\
    (init_done_ (ctx (ready_world INFLATE [])) = true -> OutOfBounds msg).
Proof.
  assert (Hwide : 32 < size_t_bits (dm := LP64)) by reflexivity.
  assert (Hty : JsBuffer short_buffer <> JsOther) by discriminate.
  assert (Hexceeds : slice_exceeds (JsBuffer short_buffer) 2 3 \/
                     slice_exceeds (JsBuffer output_buffer) 0 16).
  { left. exists short_buffer. split; reflexivity. }
  split; [exact Hwide | ]. split; [exact Hty | ]. split; [exact Hexceeds | ].
  exact (proj1 (Write_rejects_out_of_bounds (zl := scripted_zlib) INFLATE
                  Z_NO_FLUSH (JsBuffer short_buffer) 2 3
                  (JsBuffer output_buffer) 0 16 (ready_world INFLATE []))
           Hwide Hty Hexceeds).
Defined.

Lemma example_request_valid :
  valid_request (JsBuffer input_buffer) 1 4 (JsBuffer output_buffer) 0 16.
Proof.
  split.
  - right. exists input_buffer.
    split; [reflexivity | vm_compute; intros H; discriminate H].
  - exists output_buffer.
    split; [reflexivity | vm_compute; intros H; discriminate H].
Defined.

Lemma Write_stages_request_witness :
  init_done_ (ctx (ready_world DEFLATE [])) = true /\
  valid_request (JsBuffer input_buffer) 1 4 (JsBuffer output_buffer) 0 16 /\
  exists w',
    Write (zl := scripted_zlib) DEFLATE Z_FINISH (JsBuffer input_buffer) 1 4
      (JsBuffer output_buffer) 0 16 (ready_world DEFLATE []) =
    (Returned 0%nat, w') /\
    avail_in (strm_ (ctx w')) = 4 /\
    next_in (strm_ (ctx w')) = address 4097 /\
    avail_out (strm_ (ctx w')) = 16 /\
    next_out (strm_ (ctx w')) = address 8192 /\
    flush_ (ctx w') = Z_FINISH /\
    loop w' = [mk_queued_work (mk_uv_work_t (mk_WorkReqWrap 0)) DEFLATE].
Proof.
  assert (Hinit : init_done_ (ctx (ready_world DEFLATE [])) = true)
    by reflexivity.
  split; [exact Hinit | ]. split; [exact example_request_valid | ].
  destruct (Write_stages_request (zl := scripted_zlib) DEFLATE Z_FINISH
              (JsBuffer input_buffer) 1 4 (JsBuffer output_buffer) 0 16
              (ready_world DEFLATE []) Hinit example_request_valid)
    as [w' [Hrun [_ [Hin [Hout [Hflush [_ [Hloop _]]]]]]]].
  exists w'. split; [exact Hrun | ].
  destruct (Hin input_buffer eq_refl) as [Havail_in Hnext_in].
  destruct (Hout output_buffer eq_refl) as [Havail_out Hnext_out].
  repeat split; assumption.
Defined.

(** C9 on a run: an UNZIP context is initialised and destroyed. The trace
    holds the call of [inflateInit2] and no call of [inflateEnd], and the
    transform state is still allocated. The same run on an INFLATE context
    ends with the call of [inflateEnd] and the state released. *)
Lemma UNZIP_context_is_never_released :
  trace (snd (ZCtx_destructor (zl := scripted_zlib) UNZIP
                (ready_world UNZIP []))) =
  [call_inflateInit2 47 Z_OK] /\
  allocated
    (state (strm_ (ctx (snd (ZCtx_destructor (zl := scripted_zlib) UNZIP
                               (ready_world UNZIP [])))))) = true /\
  allocated
    (state (strm_ (ctx (snd (ZCtx_destructor (zl := scripted_zlib) INFLATE
                               (ready_world INFLATE [])))))) = false.
Proof. vm_compute. repeat split; reflexivity. Qed.


Lemma After_reports_counters_witness :
  init_done_ (ctx (ready_world GUNZIP [(Z_OK, 4, 10)])) = true /\
  valid_request (JsBuffer input_buffer) 1 4 (JsBuffer output_buffer) 0 16 /\
  exists w' delivered_in delivered_out,
    After (zl := scripted_zlib) GUNZIP (request 0)
      (snd (Process GUNZIP (request 0)
              (snd (set_callback 0
                      (snd (Write GUNZIP Z_NO_FLUSH (JsBuffer input_buffer)
                              1 4 (JsBuffer output_buffer) 0 16
                              (ready_world GUNZIP [(Z_OK, 4, 10)])))))))
    = (Returned tt, w') /\
    filter is_completion (trace w') =
    [call_MakeCallback 0 "callback" [delivered_in; delivered_out]] /\
    4 - delivered_in = 4 /\
    16 - delivered_out = 10.
Proof.
  assert (Hinit : init_done_ (ctx (ready_world GUNZIP [(Z_OK, 4, 10)])) = true)
    by reflexivity.
  split; [exact Hinit | ]. split; [exact example_request_valid | ].
  destruct (After_reports_counters (zl := scripted_zlib) GUNZIP Z_NO_FLUSH
              (JsBuffer input_buffer) 1 4 (JsBuffer output_buffer) 0 16
              (ready_world GUNZIP [(Z_OK, 4, 10)])
              Hinit example_request_valid)
    as [d_in [d_out [Hrun [Hd_in [Hd_out _]]]]].
  - vm_compute. split; [intros H; discriminate H | reflexivity].
  - vm_compute. split; [intros H; discriminate H | reflexivity].
  - eexists. exists d_in, d_out.
    split; [exact Hrun | ].
    rewrite Hd_in, Hd_out. vm_compute. repeat split; reflexivity.
Defined.

(** C8 as the specification words it fails: a [Z_DATA_ERROR] does not reach
    the caller. Two bytes go to a GUNZIP context. In one run [inflate]
    consumes them and answers [Z_DATA_ERROR], in the other it consumes them
    and answers [Z_OK]. In both, [Process] returns and [After] returns, and
    the callback gets the same arguments: [avail_in] = 0, [avail_out] = 16. *)
Lemma data_error_is_not_reported :
  filter is_transform_call
    (trace (snd (Process (zl := scripted_zlib) GUNZIP (request 0)
                   (two_bytes_in_flight [(Z_DATA_ERROR, 2, 0)])))) =
  [call_inflate (strm_ (ctx (two_bytes_in_flight [(Z_DATA_ERROR, 2, 0)])))
     Z_NO_FLUSH Z_DATA_ERROR] /\
  fst (Process (zl := scripted_zlib) GUNZIP (request 0)
         (two_bytes_in_flight [(Z_DATA_ERROR, 2, 0)])) = Returned tt /\
  fst (After (zl := scripted_zlib) GUNZIP (request 0)
         (snd (Process GUNZIP (request 0)
                 (two_bytes_in_flight [(Z_DATA_ERROR, 2, 0)])))) =
  Returned tt /\
  filter is_completion
    (trace (snd (After (zl := scripted_zlib) GUNZIP (request 0)
                   (snd (Process GUNZIP (request 0)
                           (two_bytes_in_flight [(Z_DATA_ERROR, 2, 0)]))))))
  = [call_MakeCallback 0 "callback" [0; 16]] /\
  filter is_completion
    (trace (snd (After (zl := scripted_zlib) GUNZIP (request 0)
                   (snd (Process GUNZIP (request 0)
                           (two_bytes_in_flight [(Z_OK, 2, 0)]))))))
  = [call_MakeCallback 0 "callback" [0; 16]].
Proof. vm_compute. repeat split; reflexivity. Qed.

Lemma completion_carries_counters_only_witness :
  has_callback 0 (two_bytes_in_flight [(Z_DATA_ERROR, 2, 0)]) = true /\
  exists w1 w2,
    Process (zl := scripted_zlib) GUNZIP (request 0)
      (two_bytes_in_flight [(Z_DATA_ERROR, 2, 0)]) = (Returned tt, w1) /\
    After (zl := scripted_zlib) GUNZIP (request 0) w1 = (Returned tt, w2) /\
    filter is_completion (trace w2) = [call_MakeCallback 0 "callback" [0; 16]].
Proof.
  assert (Hcb : has_callback 0 (two_bytes_in_flight [(Z_DATA_ERROR, 2, 0)])
                = true) by reflexivity.
  split; [exact Hcb | ].
  destruct (proj1 (completion_carries_counters_only (zl := scripted_zlib)
                     GUNZIP (request 0)
                     (two_bytes_in_flight [(Z_DATA_ERROR, 2, 0)])))
    as [HProcess [HAfter _]].
  - vm_compute. intros H. discriminate H.
  - eexists. eexists. split; [exact HProcess | ].
    split; [exact (HAfter Hcb) | ].
    vm_compute. reflexivity.
Defined.

(** ** The further properties on runs *)

Lemma Write_failure_changes_nothing_witness :
  Write (zl := scripted_zlib) INFLATE Z_NO_FLUSH (JsBuffer short_buffer) 2 3
    (JsBuffer output_buffer) 0 16 (ready_world INFLATE []) =
  (AssertionFailed "in_off + in_len <= Buffer::Length(in_buf)",
   ready_world INFLATE []) /\
  ready_world INFLATE [] = ready_world INFLATE [].
Proof.
  assert (HWrite :
            Write (zl := scripted_zlib) INFLATE Z_NO_FLUSH
              (JsBuffer short_buffer) 2 3 (JsBuffer output_buffer) 0 16
              (ready_world INFLATE []) =
            (AssertionFailed "in_off + in_len <= Buffer::Length(in_buf)",
             ready_world INFLATE []))
    by (vm_compute; reflexivity).
  split; [exact HWrite | ].
  exact (Write_failure_changes_nothing (zl := scripted_zlib) INFLATE Z_NO_FLUSH
           (JsBuffer short_buffer) 2 3 (JsBuffer output_buffer) 0 16
           (ready_world INFLATE []) _ _ HWrite).
Defined.


Lemma Write_keeps_transform_state_witness :
  init_done_ (ctx (ready_world DEFLATE [])) = true /\
  valid_request (JsBuffer input_buffer) 1 4 (JsBuffer output_buffer) 0 16 /\
  state
    (strm_
       (ctx
          (snd
             (Write (zl := scripted_zlib) DEFLATE Z_FINISH
                (JsBuffer input_buffer) 1 4 (JsBuffer output_buffer) 0 16
                (ready_world DEFLATE []))))) =
  state (strm_ (ctx (ready_world DEFLATE []))).
Proof.
  assert (Hinit : init_done_ (ctx (ready_world DEFLATE [])) = true)
    by reflexivity.
  split; [exact Hinit | ]. split; [exact example_request_valid | ].
  exact (proj1 (Write_keeps_transform_state (zl := scripted_zlib) DEFLATE
                  Z_FINISH (JsBuffer input_buffer) 1 4
                  (JsBuffer output_buffer) 0 16 (ready_world DEFLATE [])
                  Hinit example_request_valid)).
Defined.

Lemma second_Write_replaces_staging_witness :
  init_done_ (ctx (ready_world DEFLATE [])) = true /\
  valid_request (JsBuffer input_buffer) 1 4 (JsBuffer output_buffer) 0 16 /\
  valid_request JsNull 0 0 (JsBuffer output_buffer) 0 16 /\
  fst
    (Write (zl := scripted_zlib) DEFLATE Z_FINISH JsNull 0 0
       (JsBuffer output_buffer) 0 16
       (snd
          (Write (zl := scripted_zlib) DEFLATE Z_NO_FLUSH
             (JsBuffer input_buffer) 1 4 (JsBuffer output_buffer) 0 16
             (ready_world DEFLATE [])))) =
  Returned (S (objects (ready_world DEFLATE []))).
Proof.
  assert (Hinit : init_done_ (ctx (ready_world DEFLATE [])) = true)
    by reflexivity.
  assert (Hflush : valid_request JsNull 0 0 (JsBuffer output_buffer) 0 16).
  { split; [left; reflexivity | ].
    exists output_buffer.
    split; [reflexivity | vm_compute; intros H; discriminate H]. }
  split; [exact Hinit | ]. split; [exact example_request_valid | ].
  split; [exact Hflush | ].
  exact (proj1 (second_Write_replaces_staging (zl := scripted_zlib) DEFLATE
                  Z_NO_FLUSH (JsBuffer input_buffer) 1 4
                  (JsBuffer output_buffer) 0 16
                  Z_FINISH JsNull 0 0 (JsBuffer output_buffer) 0 16
                  (ready_world DEFLATE []) Hinit example_request_valid
                  Hflush)).
Defined.

Lemma Init_args_stores_configuration_witness :
  valid_configuration Z_DEFAULT_COMPRESSION 15 8 Z_DEFAULT_STRATEGY /\
  configuration
    (ctx
       (snd
          (Init_args (zl := scripted_zlib) GZIP 15 Z_DEFAULT_COMPRESSION 8
             Z_DEFAULT_STRATEGY (fresh_world Z_OK [])))) =
  (Z_DEFAULT_COMPRESSION, registry_windowBits GZIP 15, 8, Z_DEFAULT_STRATEGY).
Proof.
  assert (Hvalid :
            valid_configuration Z_DEFAULT_COMPRESSION 15 8 Z_DEFAULT_STRATEGY).
  { unfold valid_configuration, Z_DEFAULT_COMPRESSION, Z_DEFAULT_STRATEGY.
    lia. }
  split; [exact Hvalid | ].
  exact (proj2 (Init_args_stores_configuration (zl := scripted_zlib) GZIP 15
                  Z_DEFAULT_COMPRESSION 8 Z_DEFAULT_STRATEGY
                  (fresh_world Z_OK []) Hvalid)).
Defined.

Lemma Init_twice_witness :
  8 <= 15 <= 15 /\
  8 <= 9 <= 15 /\
  configuration
    (ctx
       (snd
          (Init (zl := scripted_zlib) GZIP 1 9 9 Z_RLE
             (snd
                (Init (zl := scripted_zlib) GZIP 6 15 8 Z_DEFAULT_STRATEGY
                   (fresh_world Z_OK [])))))) =
  (1, registry_windowBits GZIP 9, 9, Z_RLE).
Proof.
  assert (H1 : 8 <= 15 <= 15) by lia.
  assert (H2 : 8 <= 9 <= 15) by lia.
  split; [exact H1 | ]. split; [exact H2 | ].
  exact (proj1 (proj2 (Init_twice (zl := scripted_zlib) GZIP
                         6 15 8 Z_DEFAULT_STRATEGY 1 9 9 Z_RLE
                         (fresh_world Z_OK []) H1 H2))).
Defined.

Lemma Init_frame_witness :
  8 <= 15 <= 15 /\
  flush_
    (ctx
       (snd
          (Init (zl := scripted_zlib) INFLATE 6 15 8 Z_DEFAULT_STRATEGY
             (two_bytes_in_flight [])))) = Z_NO_FLUSH /\
  loop
    (snd
       (Init (zl := scripted_zlib) INFLATE 6 15 8 Z_DEFAULT_STRATEGY
          (two_bytes_in_flight []))) = loop (two_bytes_in_flight []).
Proof.
  assert (Hw : 8 <= 15 <= 15) by lia.
  split; [exact Hw | ].
  destruct (Init_frame (zl := scripted_zlib) INFLATE 6 15 8
              Z_DEFAULT_STRATEGY (two_bytes_in_flight []) Hw)
    as [_ [Hflush [_ [Hloop _]]]].
  split; [exact Hflush | exact Hloop].
Defined.

Lemma After_needs_callback_witness :
  callbacks_allocated (ready_world GUNZIP [(0, 16, Z_OK)]) /\
  init_done_ (ctx (ready_world GUNZIP [(0, 16, Z_OK)])) = true /\
  valid_request (JsBuffer input_buffer) 1 4 (JsBuffer output_buffer) 0 16 /\
  After (zl := scripted_zlib) GUNZIP
    (request (objects (ready_world GUNZIP [(0, 16, Z_OK)])))
    (snd
       (Process (zl := scripted_zlib) GUNZIP
          (request (objects (ready_world GUNZIP [(0, 16, Z_OK)])))
          (snd
             (Write (zl := scripted_zlib) GUNZIP Z_NO_FLUSH
                (JsBuffer input_buffer) 1 4 (JsBuffer output_buffer) 0 16
                (ready_world GUNZIP [(0, 16, Z_OK)]))))) =
  (AssertionFailed "Invalid callback",
   snd
     (Process (zl := scripted_zlib) GUNZIP
        (request (objects (ready_world GUNZIP [(0, 16, Z_OK)])))
        (snd
           (Write (zl := scripted_zlib) GUNZIP Z_NO_FLUSH
              (JsBuffer input_buffer) 1 4 (JsBuffer output_buffer) 0 16
              (ready_world GUNZIP [(0, 16, Z_OK)]))))).
Proof.
  assert (Hcb : callbacks_allocated (ready_world GUNZIP [(0, 16, Z_OK)]))
    by (vm_compute; apply Forall_nil).
  assert (Hinit : init_done_ (ctx (ready_world GUNZIP [(0, 16, Z_OK)])) = true)
    by reflexivity.
  split; [exact Hcb | ]. split; [exact Hinit | ].
  split; [exact example_request_valid | ].
  exact (After_needs_callback (zl := scripted_zlib) GUNZIP Z_NO_FLUSH
           (JsBuffer input_buffer) 1 4 (JsBuffer output_buffer) 0 16
           (ready_world GUNZIP [(0, 16, Z_OK)]) Hcb Hinit
           example_request_valid).
Defined.

Lemma Init_then_destructor_witness :
  GZIP <> UNZIP /\
  8 <= 15 <= 15 /\
  exists w2,
    ZCtx_destructor (zl := scripted_zlib) GZIP
      (snd
         (Init (zl := scripted_zlib) GZIP 6 15 8 Z_DEFAULT_STRATEGY
            (fresh_world Z_OK []))) =
    (Returned tt, w2) /\
    List.length (trace w2) = 2%nat.
Proof.
  assert (Hmode : GZIP <> UNZIP) by (intros H; discriminate H).
  assert (Hw : 8 <= 15 <= 15) by lia.
  split; [exact Hmode | ]. split; [exact Hw | ].
  destruct (Init_then_destructor (zl := scripted_zlib) GZIP 6 15 8
              Z_DEFAULT_STRATEGY (fresh_world Z_OK []) Hmode Hw)
    as [w2 [Hrun [Htrace _]]].
  exists w2. split; [exact Hrun | ].
  rewrite Htrace. reflexivity.
Defined.

Lemma exported_constants_pass_Init_witness :
  Object_Get (InitZlib 4736 "1.2.8" []) "Z_DEFAULT_COMPRESSION" =
  Some (js_integer (-1)) /\
  Object_Get (InitZlib 4736 "1.2.8" []) "Z_RLE" = Some (js_integer 3) /\
  Init_args (zl := scripted_zlib) GZIP 15 (-1) 8 3 (fresh_world Z_OK []) =
  Init (zl := scripted_zlib) GZIP (-1) 15 8 3 (fresh_world Z_OK []).
Proof.
  assert (Glevel :
            Object_Get (InitZlib 4736 "1.2.8" []) "Z_DEFAULT_COMPRESSION" =
            Some (js_integer (-1))) by reflexivity.
  assert (Gstrategy :
            Object_Get (InitZlib 4736 "1.2.8" []) "Z_RLE" =
            Some (js_integer 3)) by reflexivity.
  split; [exact Glevel | ]. split; [exact Gstrategy | ].
  apply (exported_constants_pass_Init (zl := scripted_zlib) 4736 "1.2.8" []
           "Z_DEFAULT_COMPRESSION" "Z_RLE" (-1) 3 GZIP 15 8
           (fresh_world Z_OK [])).
  - cbn [In]. tauto.
  - cbn [In]. tauto.
  - exact Glevel.
  - exact Gstrategy.
  - lia.
  - lia.
Defined.

Lemma After_wraps_large_counters_witness :
  has_callback 0
    (snd
       (set_callback 0
          (snd
             (Write (zl := scripted_zlib) INFLATE Z_NO_FLUSH JsNull 0 0
                (JsBuffer (mk_Buffer 8192 (2 ^ 31))) 0 (2 ^ 31)
                (ready_world INFLATE []))))) = true /\
  filter is_completion
    (trace
       (snd
          (After (zl := scripted_zlib) INFLATE (request 0)
             (snd
                (set_callback 0
                   (snd
                      (Write (zl := scripted_zlib) INFLATE Z_NO_FLUSH JsNull
                         0 0 (JsBuffer (mk_Buffer 8192 (2 ^ 31))) 0 (2 ^ 31)
                         (ready_world INFLATE []))))))))
  = [call_MakeCallback 0 "callback" [0; - 2 ^ 31]].
Proof.
  assert (Hcb :
            has_callback (object_ (data (request 0)))
              (snd
                 (set_callback 0
                    (snd
                       (Write (zl := scripted_zlib) INFLATE Z_NO_FLUSH JsNull
                          0 0 (JsBuffer (mk_Buffer 8192 (2 ^ 31))) 0 (2 ^ 31)
                          (ready_world INFLATE []))))) = true)
    by (vm_compute; reflexivity).
  split; [exact Hcb | ].
  rewrite (After_wraps_large_counters (zl := scripted_zlib) INFLATE
             (request 0) _ Hcb);
    [ vm_compute; reflexivity
    | vm_compute; split; [intros H; discriminate H | reflexivity]
    | vm_compute; split; [intros H; discriminate H | reflexivity] ].
Defined.

Lemma Write_accepts_wrapped_slice_witness :
  size_t_bits (dm := ILP32) = 32 /\
  slice_exceeds (JsBuffer input_buffer) 4294967295 2 /\
  fst
    (Write (zl := scripted_zlib) (dm := ILP32) INFLATE Z_NO_FLUSH
       (JsBuffer input_buffer) 4294967295 2 (JsBuffer output_buffer) 0 16
       (ready_world INFLATE [])) = Returned 0%nat /\
  fst
    (Write (zl := scripted_zlib) (dm := LP64) INFLATE Z_NO_FLUSH
       (JsBuffer input_buffer) 4294967295 2 (JsBuffer output_buffer) 0 16
       (ready_world INFLATE [])) =
  AssertionFailed "in_off + in_len <= Buffer::Length(in_buf)".
Proof.
  assert (Hbits : size_t_bits (dm := ILP32) = 32) by reflexivity.
  assert (Hinit : init_done_ (ctx (ready_world INFLATE [])) = true)
    by reflexivity.
  destruct (Write_accepts_wrapped_slice (zl := scripted_zlib) (dm := ILP32)
              INFLATE Z_NO_FLUSH input_buffer 4294967295 2 output_buffer 0 16
              (ready_world INFLATE []) Hbits Hinit)
    as [Hexceeds [w' [HWrite _]]].
  - vm_compute. reflexivity.
  - vm_compute. intros H. discriminate H.
  - vm_compute. intros H. discriminate H.
  - vm_compute. intros H. discriminate H.
  - split; [exact Hbits | ]. split; [exact Hexceeds | ].
    split; [rewrite HWrite; reflexivity | vm_compute; reflexivity].
Defined.
